(** * Execution API: task-instance routes

    A shallow embedding of
    [airflow/api_fastapi/execution_api/routes/task_instances.py]:
    the four route handlers [ti_run], [ti_update_state], [ti_heartbeat]
    and [ti_put_rtif], the rows they read and write, and the unit of work
    they run in.

    Conventions.
    - A timestamp is an integer number of clock ticks since the epoch, a
      [timedelta] and a duration an integer number of ticks.
    - A nullable column is an [option].
    - The SQLAlchemy session is threaded explicitly: a handler is a
      function from a session to a result and a session (see [M]).
    - [log.*] calls have no effect on the rows and are left out. *)

From Stdlib Require Import ZArith String List Lia.
From stdpp Require Import base decidable option list gmap strings.

Local Open Scope Z_scope.
Local Open Scope string_scope.

(** ** Data model *)

(** Opaque structured values (trigger kwargs, run conf, rendered fields). *)
Definition JsonValue : Type := list (string * string).

(** Modelled from the spec: [airflow.utils.state.State] is declared
    outside this module; these are the task-instance states the routes and
    the spec name. *)
Module State.
Inductive t : Type :=
| QUEUED
| RUNNING
| SUCCESS
| FAILED
| SKIPPED
| DEFERRED
| UP_FOR_RESCHEDULE.

#[global] Instance eq_dec : EqDecision t.
Proof. solve_decision. Defined.

Definition is_terminal (s : t) : bool :=
    match s with
    | SUCCESS | FAILED | SKIPPED => true
    | _ => false
    end.
End State.

(** Modelled from the spec: the final state of a terminal payload, one of
    the fixed terminal set (SUCCESS, FAILED, SKIPPED). *)
Module TerminalTIState.
Inductive t : Type := SUCCESS | FAILED | SKIPPED.

#[global] Instance eq_dec : EqDecision t.
Proof. solve_decision. Defined.

Definition to_state (s : t) : State.t :=
    match s with
    | SUCCESS => State.SUCCESS
    | FAILED => State.FAILED
    | SKIPPED => State.SKIPPED
    end.
End TerminalTIState.

(** Modelled from the spec: [airflow.models.taskinstance.TaskInstance] is
    declared outside this module; the record has the attributes of the
    spec's data model, under the column names the routes use.  The holder
    identity, the dates and the continuation fields are nullable. *)
Module TI.
Record t : Type := mk {
    id : string;
    task_id : string;
    dag_id : string;
    run_id : string;
    try_number : Z;
    map_index : Z;
    state : State.t;
    hostname : option string;
    unixname : option string;
    pid : option Z;
    start_date : option Z;
    end_date : option Z;
    duration : option Z;
    next_method : option string;
    next_kwargs : option JsonValue;
    trigger_id : option Z;
    trigger_timeout : option Z;
    last_heartbeat_at : option Z
}.

Definition set_state (v : State.t) (r : t) : t :=
    mk (id r) (task_id r) (dag_id r) (run_id r) (try_number r) (map_index r)
       v (hostname r) (unixname r) (pid r) (start_date r) (end_date r)
       (duration r) (next_method r) (next_kwargs r) (trigger_id r)
       (trigger_timeout r) (last_heartbeat_at r).

Definition set_hostname (v : option string) (r : t) : t :=
    mk (id r) (task_id r) (dag_id r) (run_id r) (try_number r) (map_index r)
       (state r) v (unixname r) (pid r) (start_date r) (end_date r)
       (duration r) (next_method r) (next_kwargs r) (trigger_id r)
       (trigger_timeout r) (last_heartbeat_at r).

Definition set_unixname (v : option string) (r : t) : t :=
    mk (id r) (task_id r) (dag_id r) (run_id r) (try_number r) (map_index r)
       (state r) (hostname r) v (pid r) (start_date r) (end_date r)
       (duration r) (next_method r) (next_kwargs r) (trigger_id r)
       (trigger_timeout r) (last_heartbeat_at r).

Definition set_pid (v : option Z) (r : t) : t :=
    mk (id r) (task_id r) (dag_id r) (run_id r) (try_number r) (map_index r)
       (state r) (hostname r) (unixname r) v (start_date r) (end_date r)
       (duration r) (next_method r) (next_kwargs r) (trigger_id r)
       (trigger_timeout r) (last_heartbeat_at r).

Definition set_end_date (v : option Z) (r : t) : t :=
    mk (id r) (task_id r) (dag_id r) (run_id r) (try_number r) (map_index r)
       (state r) (hostname r) (unixname r) (pid r) (start_date r) v
       (duration r) (next_method r) (next_kwargs r) (trigger_id r)
       (trigger_timeout r) (last_heartbeat_at r).

Definition set_duration (v : option Z) (r : t) : t :=
    mk (id r) (task_id r) (dag_id r) (run_id r) (try_number r) (map_index r)
       (state r) (hostname r) (unixname r) (pid r) (start_date r) (end_date r)
       v (next_method r) (next_kwargs r) (trigger_id r)
       (trigger_timeout r) (last_heartbeat_at r).

Definition set_next_method (v : option string) (r : t) : t :=
    mk (id r) (task_id r) (dag_id r) (run_id r) (try_number r) (map_index r)
       (state r) (hostname r) (unixname r) (pid r) (start_date r) (end_date r)
       (duration r) v (next_kwargs r) (trigger_id r)
       (trigger_timeout r) (last_heartbeat_at r).

Definition set_next_kwargs (v : option JsonValue) (r : t) : t :=
    mk (id r) (task_id r) (dag_id r) (run_id r) (try_number r) (map_index r)
       (state r) (hostname r) (unixname r) (pid r) (start_date r) (end_date r)
       (duration r) (next_method r) v (trigger_id r)
       (trigger_timeout r) (last_heartbeat_at r).

Definition set_trigger_id (v : option Z) (r : t) : t :=
    mk (id r) (task_id r) (dag_id r) (run_id r) (try_number r) (map_index r)
       (state r) (hostname r) (unixname r) (pid r) (start_date r) (end_date r)
       (duration r) (next_method r) (next_kwargs r) v
       (trigger_timeout r) (last_heartbeat_at r).

Definition set_trigger_timeout (v : option Z) (r : t) : t :=
    mk (id r) (task_id r) (dag_id r) (run_id r) (try_number r) (map_index r)
       (state r) (hostname r) (unixname r) (pid r) (start_date r) (end_date r)
       (duration r) (next_method r) (next_kwargs r) (trigger_id r)
       v (last_heartbeat_at r).

Definition set_last_heartbeat_at (v : option Z) (r : t) : t :=
    mk (id r) (task_id r) (dag_id r) (run_id r) (try_number r) (map_index r)
       (state r) (hostname r) (unixname r) (pid r) (start_date r) (end_date r)
       (duration r) (next_method r) (next_kwargs r) (trigger_id r)
       (trigger_timeout r) v.
End TI.

(** Modelled from the spec: [airflow.models.dagrun.DagRun], reduced to the
    nine columns [ti_run] selects for the run context. *)
Module DR.
Record t : Type := mk {
    run_id : string;
    dag_id : string;
    data_interval_start : option Z;
    data_interval_end : option Z;
    start_date : option Z;
    end_date : option Z;
    run_type : string;
    conf : JsonValue;
    logical_date : option Z
}.
End DR.

(** Modelled from the spec: [airflow.models.trigger.Trigger], with the
    classpath, the opaque kwargs and the assigned identifier.  The
    identifier is the table's autoincrement key: the constructor is not
    given one, and the object has none until the session flushes it. *)
Module Trigger.
Record t : Type := mk {
    id : option Z;
    classpath : string;
    kwargs : JsonValue
}.

(** [Trigger(classpath=..., kwargs=...)] *)
Definition new (classpath : string) (kwargs : JsonValue) : t :=
    mk None classpath kwargs.
End Trigger.

(** Modelled from the spec: [airflow.models.taskreschedule.TaskReschedule],
    the eight fields of the spec's reschedule record in the positional
    order of the constructor call. *)
Module TaskReschedule.
Record t : Type := mk {
    task_id : string;
    dag_id : string;
    run_id : string;
    try_number : Z;
    start_date : Z;
    end_date : Z;
    reschedule_date : Z;
    map_index : Z
}.
End TaskReschedule.

(** ** Request payloads and responses

    Modelled from the spec: the datamodels of
    [airflow.api_fastapi.execution_api.datamodels.taskinstance] are declared
    outside this module; each payload carries the fields the routes read
    and the spec's interface table lists. *)

Record TIEnterRunningPayload : Type := {
  er_hostname : string;
  er_unixname : string;
  er_pid : Z
}.

Record TITerminalStatePayload : Type := {
  tp_state : TerminalTIState.t;
  tp_end_date : Z
}.

Record TIDeferredStatePayload : Type := {
  dp_classpath : string;
  dp_trigger_kwargs : JsonValue;
  dp_next_method : string;
  dp_trigger_timeout : option Z
}.

Record TIRescheduleStatePayload : Type := {
  rp_reschedule_date : Z;
  rp_end_date : Z
}.

(** The tagged union the [isinstance] chain of [ti_update_state]
    dispatches on. *)
Inductive TIStateUpdate : Type :=
| Terminal (p : TITerminalStatePayload)
| Deferred (p : TIDeferredStatePayload)
| Reschedule (p : TIRescheduleStatePayload).

Record TIHeartbeatInfo : Type := {
  hb_hostname : string;
  hb_pid : Z
}.

Record TIRunContext : Type := {
  dag_run : DR.t;
  variables : list string;
  connections : list string
}.

(** ** Exceptions and HTTP responses *)

(** The [detail] of an [HTTPException] raised by the routes. *)
Inductive Detail : Type :=
| no_detail
| not_found
| invalid_state (previous_state : State.t)
| running_elsewhere (current_hostname : option string) (current_pid : option Z)
| not_running (current_state : State.t)
| database_error_occurred.

(** The [reason] key of a detail dictionary, when it has one. *)
Definition reason (d : Detail) : option string :=
  match d with
  | not_found => Some "not_found"
  | invalid_state _ => Some "invalid_state"
  | running_elsewhere _ _ => Some "running_elsewhere"
  | not_running _ => Some "not_running"
  | no_detail | database_error_occurred => None
  end.

Definition HTTP_404_NOT_FOUND : Z := 404.
Definition HTTP_409_CONFLICT : Z := 409.
Definition HTTP_500_INTERNAL_SERVER_ERROR : Z := 500.

Inductive Exception : Type :=
| NoResultFound
| MultipleResultsFound
| ValueError (message : string)
| AttributeError
| HTTPException (status_code : Z) (detail : Detail).

(** [sqlalchemy.exc.SQLAlchemyError] and its subclasses. *)
Definition SQLAlchemyError (e : Exception) : bool :=
  match e with
  | NoResultFound | MultipleResultsFound => true
  | _ => false
  end.

Inductive Result (A : Type) : Type :=
| Ok (a : A)
| Raise (e : Exception).
Arguments Ok {A} a.
Arguments Raise {A} e.

(** The status the framework answers with: an [HTTPException] carries its
    own, any other exception that leaves the handler is an internal server
    error. *)
Definition status_of {A : Type} (success : Z) (r : Result A) : Z :=
  match r with
  | Ok _ => success
  | Raise (HTTPException status_code _) => status_code
  | Raise _ => HTTP_500_INTERNAL_SERVER_ERROR
  end.

(** ** The store and the session *)

Record Database : Type := mkDatabase {
  task_instance : gmap string TI.t;
  dag_run_table : list DR.t;
  trigger : list Trigger.t;
  task_reschedule : list TaskReschedule.t;
  rendered_task_instance_fields : gmap string JsonValue
}.

(** Objects handed to [session.add], waiting for the flush. *)
Inductive Pending : Type :=
| NewTrigger (row : Trigger.t)
| NewTaskReschedule (row : TaskReschedule.t).

(** A session: the rows as the statements executed so far left them, and
    the pending objects in the order they were added. *)
Record Session : Type := mkSession {
  rows : Database;
  new : list Pending
}.

Definition set_task_instance (m : gmap string TI.t) (d : Database) : Database :=
  mkDatabase m (dag_run_table d) (trigger d) (task_reschedule d)
             (rendered_task_instance_fields d).

Definition set_rendered_task_instance_fields
    (m : gmap string JsonValue) (d : Database) : Database :=
  mkDatabase (task_instance d) (dag_run_table d) (trigger d)
             (task_reschedule d) m.

(** The next value of the trigger table's autoincrement key: above every
    identifier in the table. *)
Definition next_trigger_id (l : list Trigger.t) : Z :=
  1 + fold_right (fun row acc => Z.max (default 0 (Trigger.id row)) acc) 0 l.

(** Flushing one pending object inserts its row; a trigger is assigned its
    identifier here. *)
Definition flush_one (d : Database) (o : Pending) : Database :=
  match o with
  | NewTrigger row =>
      let row' := Trigger.mk (Some (next_trigger_id (trigger d)))
                             (Trigger.classpath row) (Trigger.kwargs row) in
      mkDatabase (task_instance d) (dag_run_table d) (trigger d ++ [row'])
                 (task_reschedule d) (rendered_task_instance_fields d)
  | NewTaskReschedule row =>
      mkDatabase (task_instance d) (dag_run_table d) (trigger d)
                 (task_reschedule d ++ [row]) (rendered_task_instance_fields d)
  end.

Definition flush (s : Session) : Database :=
  fold_left flush_one (new s) (rows s).

(** ** The handler monad: state passing with exceptions *)

Definition M (A : Type) : Type := Session -> Result A * Session.

Definition ret {A : Type} (a : A) : M A := fun s => (Ok a, s).

Definition raise {A : Type} (e : Exception) : M A := fun s => (Raise e, s).

Definition bind {A B : Type} (m : M A) (k : A -> M B) : M B :=
  fun s =>
    match m s with
    | (Ok a, s') => k a s'
    | (Raise e, s') => (Raise e, s')
    end.

Notation "'let*' x ':=' m 'in' k" := (bind m (fun x => k))
  (at level 10, x name, m at level 100, k at level 200).

(** [try: body except ...]: the handler sees the exception and the session
    as the body left it; [None] lets the exception through. *)
Definition try_except {A : Type} (body : M A)
    (handler : Exception -> option (M A)) : M A :=
  fun s =>
    match body s with
    | (Ok a, s') => (Ok a, s')
    | (Raise e, s') =>
        match handler e with
        | Some h => h s'
        | None => (Raise e, s')
        end
    end.

(** Modelled from the spec: [SessionDep] (airflow.api_fastapi.common.db)
    is declared outside this module.  The handler runs in one atomic unit
    of work: it commits (flushing the pending objects) when the handler
    returns, and aborts, leaving the store as it was, when the handler
    raises. *)
Definition unit_of_work {A : Type} (handler : M A) (d : Database)
    : Result A * Database :=
  match handler (mkSession d []) with
  | (Ok a, s) => (Ok a, flush s)
  | (Raise e, _) => (Raise e, d)
  end.

(** ** Statements *)

(** One entry of the SET clause of [update(TI)]: a column and the value,
    or the SQL expression, it is set to. *)
Inductive Assignment : Type :=
| Set_state (v : State.t)
| Set_hostname (v : option string)
| Set_unixname (v : option string)
| Set_pid (v : option Z)
| Set_end_date (v : option Z)
| Set_duration_since_start (end_date : Z)
| Set_next_method (v : option string)
| Set_next_kwargs (v : option JsonValue)
| Set_trigger_id (v : option Z)
| Set_trigger_timeout (v : option Z)
| Set_last_heartbeat_at (v : option Z).

(** [update(TI).where(TI.id == ti_id_str)] with the values given so far. *)
Record Update : Type := mkUpdate {
  where_id : string;
  set_clause : list Assignment
}.

Definition update_TI (ti_id_str : string) : Update := mkUpdate ti_id_str [].

(** [query.values(...)]: a later value for a column replaces an earlier one,
    which applying the clause from left to right gives. *)
Definition values (query : Update) (vs : list Assignment) : Update :=
  mkUpdate (where_id query) (set_clause query ++ vs).

(** Modelled from the spec: the duration column is recomputed from the
    start and the end date, [duration = end_date - start_date]; as every
    SQL expression over a NULL, it is NULL when the row has no start date. *)
Definition duration_expression (end_date : Z) (row : TI.t) : option Z :=
  match TI.start_date row with
  | Some start_date => Some (end_date - start_date)
  | None => None
  end.

(** Modelled from the spec: [TI.duration_expression_update] (declared in
    airflow.models.taskinstance) adds the end date and the duration
    expression to the statement. *)
Definition duration_expression_update (end_date : Z) (query : Update) : Update :=
  values query [Set_end_date (Some end_date); Set_duration_since_start end_date].

(** An expression of the SET clause reads the row as it was before the
    statement. *)
Definition assign (old : TI.t) (row : TI.t) (a : Assignment) : TI.t :=
  match a with
  | Set_state v => TI.set_state v row
  | Set_hostname v => TI.set_hostname v row
  | Set_unixname v => TI.set_unixname v row
  | Set_pid v => TI.set_pid v row
  | Set_end_date v => TI.set_end_date v row
  | Set_duration_since_start end_date =>
      TI.set_duration (duration_expression end_date old) row
  | Set_next_method v => TI.set_next_method v row
  | Set_next_kwargs v => TI.set_next_kwargs v row
  | Set_trigger_id v => TI.set_trigger_id v row
  | Set_trigger_timeout v => TI.set_trigger_timeout v row
  | Set_last_heartbeat_at v => TI.set_last_heartbeat_at v row
  end.

Definition apply_update (query : Update) (row : TI.t) : TI.t :=
  fold_left (assign row) (set_clause query) row.

(** [session.execute(query)] for an UPDATE: the result is the row count. *)
Definition execute (query : Update) : M Z :=
  fun s =>
    match task_instance (rows s) !! where_id query with
    | Some row =>
        let m := <[where_id query := apply_update query row]> (task_instance (rows s)) in
        (Ok 1, mkSession (set_task_instance m (rows s)) (new s))
    | None => (Ok 0, s)
    end.

(** [session.execute(select(cols).where(TI.id == ti_id_str).with_for_update()).one()] *)
Definition select_TI_one {A : Type} (cols : TI.t -> A) (ti_id_str : string) : M A :=
  fun s =>
    match task_instance (rows s) !! ti_id_str with
    | Some row => (Ok (cols row), s)
    | None => (Raise NoResultFound, s)
    end.

(** [session.get(TI, ti_id_str)] and [session.scalar(select(TI).where(...))] *)
Definition session_get (ti_id_str : string) : M (option TI.t) :=
  fun s => (Ok (task_instance (rows s) !! ti_id_str), s).

(** [session.add(obj)] *)
Definition session_add (o : Pending) : M unit :=
  fun s => (Ok tt, mkSession (rows s) (new s ++ [o])).

(** [select(DR...).filter_by(dag_id=dag_id, run_id=run_id)] *)
Definition filter_by (dag_id run_id : string) (l : list DR.t) : list DR.t :=
  List.filter
    (fun dr => bool_decide (DR.dag_id dr = dag_id) && bool_decide (DR.run_id dr = run_id))
    l.

(** [session.execute(...).one_or_none()] *)
Definition select_DR_one_or_none (dag_id run_id : string) : M (option DR.t) :=
  fun s =>
    match filter_by dag_id run_id (dag_run_table (rows s)) with
    | [] => (Ok None, s)
    | [dr] => (Ok (Some dr), s)
    | _ => (Raise MultipleResultsFound, s)
    end.

(** [model_dump(exclude_unset=True)]: every field of these payloads is
    required, so every field is set. *)
Definition model_dump_run (p : TIEnterRunningPayload) : list Assignment :=
  [Set_hostname (Some (er_hostname p)); Set_unixname (Some (er_unixname p));
   Set_pid (Some (er_pid p))].

(** For a deferred or a reschedule payload the statement built from the
    dump is dropped before it is executed (the branch starts a new
    [update(TI)]), so only the dump of a terminal payload reaches the
    store. *)
Definition model_dump (p : TIStateUpdate) : list Assignment :=
  match p with
  | Terminal p =>
      [Set_state (TerminalTIState.to_state (tp_state p));
       Set_end_date (Some (tp_end_date p))]
  | Deferred p => [Set_next_method (Some (dp_next_method p))]
  | Reschedule p => [Set_end_date (Some (rp_end_date p))]
  end.

(** The handler of [except NoResultFound] in the three state routes. *)
Definition not_found_handler {A : Type} (e : Exception) : option (M A) :=
  match e with
  | NoResultFound => Some (raise (HTTPException HTTP_404_NOT_FOUND not_found))
  | _ => None
  end.

(** The handler of [except SQLAlchemyError]. *)
Definition database_error_handler {A : Type} (e : Exception) : option (M A) :=
  if SQLAlchemyError e
  then Some (raise (HTTPException HTTP_500_INTERNAL_SERVER_ERROR database_error_occurred))
  else None.

(** ** The routes *)

Definition ti_run (task_instance_id : string) (ti_run_payload : TIEnterRunningPayload)
    : M TIRunContext :=
  let ti_id_str := task_instance_id in
  let* old :=
    try_except
      (select_TI_one (fun r => (TI.state r, TI.dag_id r, TI.run_id r)) ti_id_str)
      not_found_handler in
  let '(previous_state, dag_id, run_id) := old in
  let data := model_dump_run ti_run_payload in
  let query := values (update_TI ti_id_str) data in
  if decide (previous_state <> State.QUEUED) then
    raise (HTTPException HTTP_409_CONFLICT (invalid_state previous_state))
  else
    let query :=
      values query
        [Set_end_date None;
         Set_hostname (Some (er_hostname ti_run_payload));
         Set_unixname (Some (er_unixname ti_run_payload));
         Set_pid (Some (er_pid ti_run_payload));
         Set_state State.RUNNING] in
    try_except
      (let* result := execute query in
       let* dr := select_DR_one_or_none dag_id run_id in
       match dr with
       | None =>
           raise (ValueError ("DagRun with dag_id=" ++ dag_id ++ " and run_id="
                              ++ run_id ++ " not found."))
       | Some dr => ret {| dag_run := dr; variables := []; connections := [] |}
       end)
      database_error_handler.

Definition ti_update_state (utcnow : Z) (task_instance_id : string)
    (ti_patch_payload : TIStateUpdate) : M unit :=
  let ti_id_str := task_instance_id in
  let* previous_state :=
    try_except (select_TI_one TI.state ti_id_str) not_found_handler in
  let data := model_dump ti_patch_payload in
  let query := values (update_TI ti_id_str) data in
  let* query :=
    match ti_patch_payload with
    | Terminal p =>
        let query := duration_expression_update (tp_end_date p) query in
        let query := values query [Set_state (TerminalTIState.to_state (tp_state p))] in
        if decide (tp_state p = TerminalTIState.FAILED) then
          ret (values query [Set_next_method None; Set_next_kwargs None])
        else ret query
    | Deferred p =>
        let timeout :=
          match dp_trigger_timeout p with
          | Some trigger_timeout => Some (utcnow + trigger_timeout)
          | None => None
          end in
        let trigger_row := Trigger.new (dp_classpath p) (dp_trigger_kwargs p) in
        let* _ := session_add (NewTrigger trigger_row) in
        let query := update_TI ti_id_str in
        ret (values query
               [Set_state State.DEFERRED;
                Set_trigger_id (Trigger.id trigger_row);
                Set_next_method (Some (dp_next_method p));
                Set_next_kwargs (Some (dp_trigger_kwargs p));
                Set_trigger_timeout timeout])
    | Reschedule p =>
        let* task_instance := session_get ti_id_str in
        match task_instance with
        | None => raise AttributeError
        | Some task_instance =>
            let actual_start_date := utcnow in
            let* _ :=
              session_add
                (NewTaskReschedule
                   (TaskReschedule.mk
                      (TI.task_id task_instance)
                      (TI.dag_id task_instance)
                      (TI.run_id task_instance)
                      (TI.try_number task_instance)
                      actual_start_date
                      (rp_end_date p)
                      (rp_reschedule_date p)
                      (TI.map_index task_instance))) in
            let query := update_TI ti_id_str in
            let query := duration_expression_update (rp_end_date p) query in
            ret (values query
                   [Set_state State.UP_FOR_RESCHEDULE;
                    Set_next_method None; Set_next_kwargs None])
        end
    end in
  try_except
    (let* result := execute query in ret tt)
    database_error_handler.

Definition ti_heartbeat (utcnow : Z) (task_instance_id : string)
    (ti_payload : TIHeartbeatInfo) : M unit :=
  let ti_id_str := task_instance_id in
  let* old :=
    try_except
      (select_TI_one (fun r => (TI.state r, TI.hostname r, TI.pid r)) ti_id_str)
      not_found_handler in
  let '(previous_state, hostname, pid) := old in
  if decide (hostname <> Some (hb_hostname ti_payload) \/ pid <> Some (hb_pid ti_payload)) then
    raise (HTTPException HTTP_409_CONFLICT (running_elsewhere hostname pid))
  else if decide (previous_state <> State.RUNNING) then
    raise (HTTPException HTTP_409_CONFLICT (not_running previous_state))
  else
    let* _ := execute (values (update_TI ti_id_str) [Set_last_heartbeat_at (Some utcnow)]) in
    ret tt.

(** Modelled from the spec: [_update_rtif] (declared in
    airflow.models.taskinstance) merges the rendered fields of one instance
    into the rendered-fields store, as an upsert. *)
Definition _update_rtif (task_instance : TI.t) (rendered_fields : JsonValue) : M unit :=
  fun s =>
    let m := <[TI.id task_instance := rendered_fields]>
               (rendered_task_instance_fields (rows s)) in
    (Ok tt, mkSession (set_rendered_task_instance_fields m (rows s)) (new s)).

Definition ti_put_rtif (task_instance_id : string) (put_rtif_payload : JsonValue)
    : M string :=
  let ti_id_str := task_instance_id in
  let* task_instance := session_get ti_id_str in
  match task_instance with
  | None => raise (HTTPException HTTP_404_NOT_FOUND no_detail)
  | Some task_instance =>
      let* _ := _update_rtif task_instance put_rtif_payload in
      ret "Rendered task instance fields successfully set"
  end.

(** ** The operations of the core, each in its own unit of work *)

Definition start_run (d : Database) (task_instance_id : string)
    (p : TIEnterRunningPayload) : Result TIRunContext * Database :=
  unit_of_work (ti_run task_instance_id p) d.

Definition update_state (d : Database) (utcnow : Z) (task_instance_id : string)
    (p : TIStateUpdate) : Result unit * Database :=
  unit_of_work (ti_update_state utcnow task_instance_id p) d.

Definition heartbeat (d : Database) (utcnow : Z) (task_instance_id : string)
    (p : TIHeartbeatInfo) : Result unit * Database :=
  unit_of_work (ti_heartbeat utcnow task_instance_id p) d.

Definition put_rendered_fields (d : Database) (task_instance_id : string)
    (p : JsonValue) : Result string * Database :=
  unit_of_work (ti_put_rtif task_instance_id p) d.

(** A call of one of the operations, with the clock reading it sees. *)
Inductive Operation : Type :=
| StartRun (task_instance_id : string) (p : TIEnterRunningPayload)
| UpdateState (utcnow : Z) (task_instance_id : string) (p : TIStateUpdate)
| Heartbeat (utcnow : Z) (task_instance_id : string) (p : TIHeartbeatInfo)
| PutRenderedFields (task_instance_id : string) (p : JsonValue).

(** The store after one call. *)
Definition step (d : Database) (op : Operation) : Database :=
  match op with
  | StartRun i p => snd (start_run d i p)
  | UpdateState utcnow i p => snd (update_state d utcnow i p)
  | Heartbeat utcnow i p => snd (heartbeat d utcnow i p)
  | PutRenderedFields i p => snd (put_rendered_fields d i p)
  end.

(** The store after a sequence of calls, one after the other. *)
Definition run (d : Database) (ops : list Operation) : Database :=
  fold_left step ops d.






(** A nullable timestamp strictly advances when it becomes a later, or a
    first, timestamp. *)
Definition advances (before after : option Z) : Prop :=
  match before, after with
  | Some t, Some t' => t < t'
  | None, Some _ => True
  | _, None => False
  end.

(** ** Sample store *)

Definition sample_ti (s : State.t) : TI.t :=
  TI.mk "ti-1" "task-a" "dag-a" "run-1" 1 (-1) s
        (Some "h1") (Some "airflow") (Some 1000)
        (Some 100) None None None None None None (Some 150).

Definition sample_run : DR.t :=
  DR.mk "run-1" "dag-a" (Some 0) (Some 50) (Some 90) None "manual" [] (Some 0).

Definition sample_db (s : State.t) : Database :=
  mkDatabase {[ "ti-1" := sample_ti s ]} [sample_run] [] [] ∅.

Definition sample_enter : TIEnterRunningPayload :=
  {| er_hostname := "h2"; er_unixname := "worker"; er_pid := 2000 |}.

Definition sample_deferred : TIDeferredStatePayload :=
  {| dp_classpath := "my-classpath"; dp_trigger_kwargs := [("key", "value")];
     dp_next_method := "execute_callback"; dp_trigger_timeout := Some 10 |}.

Definition sample_reschedule : TIRescheduleStatePayload :=
  {| rp_reschedule_date := 300; rp_end_date := 190 |}.

(** A store in which two runs carry the instance's dag id and run id. *)
Definition sample_db_two_runs : Database :=
  mkDatabase {[ "ti-1" := sample_ti State.QUEUED ]} [sample_run; sample_run] [] [] ∅.

(** An instance that was never started: no holder identity. *)
Definition sample_unheld_ti : TI.t :=
  TI.mk "ti-1" "task-a" "dag-a" "run-1" 1 (-1) State.QUEUED
        None None None None None None None None None None None.

Definition sample_unheld_db : Database :=
  mkDatabase {[ "ti-1" := sample_unheld_ti ]} [sample_run] [] [] ∅.

(** ** The rows the transitions write *)

(** The row [ti_run] leaves behind. *)
Definition started (p : TIEnterRunningPayload) (row : TI.t) : TI.t :=
  TI.set_state State.RUNNING
    (TI.set_pid (Some (er_pid p))
       (TI.set_unixname (Some (er_unixname p))
          (TI.set_hostname (Some (er_hostname p))
             (TI.set_end_date None row)))).

(** The row a terminal update leaves behind. *)
Definition terminated (p : TITerminalStatePayload) (row : TI.t) : TI.t :=
  let row' :=
    TI.set_state (TerminalTIState.to_state (tp_state p))
      (TI.set_duration (duration_expression (tp_end_date p) row)
         (TI.set_end_date (Some (tp_end_date p)) row)) in
  if decide (tp_state p = TerminalTIState.FAILED)
  then TI.set_next_kwargs None (TI.set_next_method None row')
  else row'.

(** The row a deferral leaves behind. *)
Definition deferred (utcnow : Z) (p : TIDeferredStatePayload) (row : TI.t) : TI.t :=
  TI.set_trigger_timeout
    (match dp_trigger_timeout p with
     | Some trigger_timeout => Some (utcnow + trigger_timeout)
     | None => None
     end)
    (TI.set_next_kwargs (Some (dp_trigger_kwargs p))
       (TI.set_next_method (Some (dp_next_method p))
          (TI.set_trigger_id None
             (TI.set_state State.DEFERRED row)))).

(** The row a reschedule leaves behind. *)
Definition rescheduled (p : TIRescheduleStatePayload) (row : TI.t) : TI.t :=
  TI.set_next_kwargs None
    (TI.set_next_method None
       (TI.set_state State.UP_FOR_RESCHEDULE
          (TI.set_duration (duration_expression (rp_end_date p) row)
             (TI.set_end_date (Some (rp_end_date p)) row)))).

(** The reschedule record copied from a row. *)
Definition reschedule_record (utcnow : Z) (p : TIRescheduleStatePayload)
    (row : TI.t) : TaskReschedule.t :=
  TaskReschedule.mk (TI.task_id row) (TI.dag_id row) (TI.run_id row)
    (TI.try_number row) utcnow (rp_end_date p) (rp_reschedule_date p)
    (TI.map_index row).

(** The trigger row a deferral inserts into a trigger table. *)
Definition inserted_trigger (l : list Trigger.t) (p : TIDeferredStatePayload)
    : Trigger.t :=
  Trigger.mk (Some (next_trigger_id l)) (dp_classpath p) (dp_trigger_kwargs p).

(** ** Calls and their answers *)

(** What a route answers with on success. *)
Inductive Response : Type :=
| RunContext (context : TIRunContext)
| NoContent
| Created (message : string).

Definition map_result {A B : Type} (f : A -> B) (r : Result A) : Result B :=
  match r with
  | Ok a => Ok (f a)
  | Raise e => Raise e
  end.

(** One call: the answer and the store it leaves. *)
Definition call (d : Database) (op : Operation) : Result Response * Database :=
  match op with
  | StartRun i p =>
      (map_result RunContext (fst (start_run d i p)), snd (start_run d i p))
  | UpdateState utcnow i p =>
      (map_result (fun _ => NoContent) (fst (update_state d utcnow i p)),
       snd (update_state d utcnow i p))
  | Heartbeat utcnow i p =>
      (map_result (fun _ => NoContent) (fst (heartbeat d utcnow i p)),
       snd (heartbeat d utcnow i p))
  | PutRenderedFields i p =>
      (map_result Created (fst (put_rendered_fields d i p)),
       snd (put_rendered_fields d i p))
  end.

(** The trigger rows a call appends when it is accepted. *)
Definition new_triggers (d : Database) (op : Operation) : list Trigger.t :=
  match op with
  | UpdateState _ _ (Deferred p) => [inserted_trigger (trigger d) p]
  | _ => []
  end.

(** The reschedule records a call appends when it is accepted on [row]. *)
Definition new_task_reschedules (op : Operation) (row : TI.t) : list TaskReschedule.t :=
  match op with
  | UpdateState utcnow _ (Reschedule p) => [reschedule_record utcnow p row]
  | _ => []
  end.

(** The columns that say which instance a row is. *)
Definition identity_columns (row : TI.t) : string * string * string * string * Z * Z :=
  (TI.id row, TI.task_id row, TI.dag_id row, TI.run_id row,
   TI.try_number row, TI.map_index row).

(** The holder identity of a row. *)
Definition holder (row : TI.t) : option string * option string * option Z :=
  (TI.hostname row, TI.unixname row, TI.pid row).

(** The state an accepted update-state payload leaves. *)
Definition target_state (p : TIStateUpdate) : State.t :=
  match p with
  | Terminal p => TerminalTIState.to_state (tp_state p)
  | Deferred _ => State.DEFERRED
  | Reschedule _ => State.UP_FOR_RESCHEDULE
  end.

(** ** The state machine the routes implement *)

(** The instance a call addresses. *)
Definition target (op : Operation) : string :=
  match op with
  | StartRun i _ | UpdateState _ i _ | Heartbeat _ i _ | PutRenderedFields i _ => i
  end.

(** [transition op row row']: the call [op] is accepted on [row] and
    rewrites it to [row']. *)
Inductive transition : Operation -> TI.t -> TI.t -> Prop :=
| transition_start i p row :
    TI.state row = State.QUEUED ->
    transition (StartRun i p) row (started p row)
| transition_terminal utcnow i p row :
    transition (UpdateState utcnow i (Terminal p)) row (terminated p row)
| transition_deferred utcnow i p row :
    transition (UpdateState utcnow i (Deferred p)) row (deferred utcnow p row)
| transition_reschedule utcnow i p row :
    transition (UpdateState utcnow i (Reschedule p)) row (rescheduled p row)
| transition_heartbeat utcnow i p row :
    TI.state row = State.RUNNING ->
    TI.hostname row = Some (hb_hostname p) ->
    TI.pid row = Some (hb_pid p) ->
    transition (Heartbeat utcnow i p) row (TI.set_last_heartbeat_at (Some utcnow) row).

(** ** What each route does, case by case *)

Ltac unfold_route :=
  unfold start_run, update_state, heartbeat, put_rendered_fields, unit_of_work,
    ti_run, ti_update_state, ti_heartbeat, ti_put_rtif, _update_rtif,
    bind, try_except, select_TI_one, select_DR_one_or_none, session_get,
    session_add, execute, ret, raise, not_found_handler,
    database_error_handler; simpl.

Lemma start_run_not_found d i p :
  task_instance d !! i = None ->
  start_run d i p = (Raise (HTTPException HTTP_404_NOT_FOUND not_found), d).
Proof. intros H. unfold_route. rewrite H. reflexivity. Qed.

Lemma start_run_invalid_state d i p row :
  task_instance d !! i = Some row ->
  TI.state row <> State.QUEUED ->
  start_run d i p
  = (Raise (HTTPException HTTP_409_CONFLICT (invalid_state (TI.state row))), d).
Proof.
  intros H Hs. unfold_route. rewrite H. simpl.
  destruct (decide (TI.state row <> State.QUEUED)) as [_|Hn]; [reflexivity|].
  contradiction.
Qed.

Lemma start_run_queued d i p row :
  task_instance d !! i = Some row ->
  TI.state row = State.QUEUED ->
  start_run d i p
  = match filter_by (TI.dag_id row) (TI.run_id row) (dag_run_table d) with
    | [] =>
        (Raise (ValueError ("DagRun with dag_id=" ++ TI.dag_id row ++ " and run_id="
                            ++ TI.run_id row ++ " not found.")), d)
    | [dr] =>
        (Ok {| dag_run := dr; variables := []; connections := [] |},
         set_task_instance (<[i := started p row]> (task_instance d)) d)
    | _ :: _ :: _ =>
        (Raise (HTTPException HTTP_500_INTERNAL_SERVER_ERROR database_error_occurred), d)
    end.
Proof.
  intros H Hs. unfold_route. rewrite H. simpl.
  destruct (decide (TI.state row <> State.QUEUED)) as [Hn|_]; [contradiction|].
  simpl. rewrite H. simpl.
  destruct (filter_by (TI.dag_id row) (TI.run_id row) (dag_run_table d))
    as [|dr [|dr' l]]; reflexivity.
Qed.

Lemma update_state_not_found d utcnow i p :
  task_instance d !! i = None ->
  update_state d utcnow i p = (Raise (HTTPException HTTP_404_NOT_FOUND not_found), d).
Proof. intros H. unfold_route. rewrite H. reflexivity. Qed.

Lemma update_state_terminal d utcnow i p row :
  task_instance d !! i = Some row ->
  update_state d utcnow i (Terminal p)
  = (Ok tt, set_task_instance (<[i := terminated p row]> (task_instance d)) d).
Proof.
  intros H. unfold_route. rewrite H. simpl. unfold terminated.
  destruct (decide (tp_state p = TerminalTIState.FAILED)); simpl; rewrite H; reflexivity.
Qed.

Lemma update_state_deferred d utcnow i p row :
  task_instance d !! i = Some row ->
  update_state d utcnow i (Deferred p)
  = (Ok tt,
     mkDatabase (<[i := deferred utcnow p row]> (task_instance d))
       (dag_run_table d) (trigger d ++ [inserted_trigger (trigger d) p])
       (task_reschedule d) (rendered_task_instance_fields d)).
Proof. intros H. unfold_route. rewrite H. simpl. rewrite H. reflexivity. Qed.

Lemma update_state_reschedule d utcnow i p row :
  task_instance d !! i = Some row ->
  update_state d utcnow i (Reschedule p)
  = (Ok tt,
     mkDatabase (<[i := rescheduled p row]> (task_instance d))
       (dag_run_table d) (trigger d)
       (task_reschedule d ++ [reschedule_record utcnow p row])
       (rendered_task_instance_fields d)).
Proof.
  intros H. unfold_route. rewrite H. simpl. rewrite H. simpl. rewrite H.
  reflexivity.
Qed.

Lemma heartbeat_not_found d utcnow i p :
  task_instance d !! i = None ->
  heartbeat d utcnow i p = (Raise (HTTPException HTTP_404_NOT_FOUND not_found), d).
Proof. intros H. unfold_route. rewrite H. reflexivity. Qed.

Lemma heartbeat_elsewhere d utcnow i p row :
  task_instance d !! i = Some row ->
  TI.hostname row <> Some (hb_hostname p) \/ TI.pid row <> Some (hb_pid p) ->
  heartbeat d utcnow i p
  = (Raise (HTTPException HTTP_409_CONFLICT
              (running_elsewhere (TI.hostname row) (TI.pid row))), d).
Proof.
  intros H Hne. unfold_route. rewrite H. simpl.
  destruct (decide _) as [_|Hn]; [reflexivity | contradiction].
Qed.

Lemma heartbeat_holder_not_running d utcnow i p row :
  task_instance d !! i = Some row ->
  TI.hostname row = Some (hb_hostname p) ->
  TI.pid row = Some (hb_pid p) ->
  TI.state row <> State.RUNNING ->
  heartbeat d utcnow i p
  = (Raise (HTTPException HTTP_409_CONFLICT (not_running (TI.state row))), d).
Proof.
  intros H Hh Hp Hs. unfold_route. rewrite H. simpl.
  destruct (decide _) as [[Hn|Hn]|_]; [contradiction..|].
  destruct (decide _) as [_|Hn]; [reflexivity | contradiction].
Qed.

Lemma heartbeat_holder_running d utcnow i p row :
  task_instance d !! i = Some row ->
  TI.hostname row = Some (hb_hostname p) ->
  TI.pid row = Some (hb_pid p) ->
  TI.state row = State.RUNNING ->
  heartbeat d utcnow i p
  = (Ok tt,
     set_task_instance
       (<[i := TI.set_last_heartbeat_at (Some utcnow) row]> (task_instance d)) d).
Proof.
  intros H Hh Hp Hs. unfold_route. rewrite H. simpl.
  destruct (decide _) as [[Hn|Hn]|_]; [contradiction..|].
  destruct (decide _) as [Hn|_]; [contradiction|].
  simpl. rewrite H. reflexivity.
Qed.

Lemma put_rendered_fields_not_found d i p :
  task_instance d !! i = None ->
  put_rendered_fields d i p = (Raise (HTTPException HTTP_404_NOT_FOUND no_detail), d).
Proof. intros H. unfold_route. rewrite H. reflexivity. Qed.

Lemma put_rendered_fields_found d i p row :
  task_instance d !! i = Some row ->
  put_rendered_fields d i p
  = (Ok "Rendered task instance fields successfully set",
     set_rendered_task_instance_fields
       (<[TI.id row := p]> (rendered_task_instance_fields d)) d).
Proof. intros H. unfold_route. rewrite H. reflexivity. Qed.

(** ** Facts about the state machine *)

Lemma filter_by_In dag_id run_id l dr :
  In dr (filter_by dag_id run_id l) <->
  In dr l /\ DR.dag_id dr = dag_id /\ DR.run_id dr = run_id.
Proof.
  unfold filter_by. rewrite filter_In, andb_true_iff, !bool_decide_eq_true.
  reflexivity.
Qed.


(** The reschedule table is append-only: a call adds records at the end
    and leaves the ones that are there as they are. *)
Lemma step_task_reschedule d op :
  exists l, task_reschedule (step d op) = (task_reschedule d ++ l)%list.
Proof.
  destruct op as [i p|utcnow i p|utcnow i p|i p]; simpl;
    destruct (task_instance d !! i) as [row|] eqn:H.
  - destruct (decide (TI.state row = State.QUEUED)) as [Hs|Hs].
    + rewrite (start_run_queued _ _ _ _ H Hs).
      destruct (filter_by _ _ _) as [|dr [|dr' l]]; exists []; simpl;
        now rewrite app_nil_r.
    + rewrite (start_run_invalid_state _ _ _ _ H Hs). exists [].
      now rewrite app_nil_r.
  - rewrite (start_run_not_found _ _ _ H). exists []. now rewrite app_nil_r.
  - destruct p as [p|p|p].
    + rewrite (update_state_terminal _ _ _ _ _ H). exists [].
      simpl. now rewrite app_nil_r.
    + rewrite (update_state_deferred _ _ _ _ _ H). exists [].
      simpl. now rewrite app_nil_r.
    + rewrite (update_state_reschedule _ _ _ _ _ H).
      exists [reschedule_record utcnow p row]. reflexivity.
  - rewrite (update_state_not_found _ _ _ _ H). exists []. now rewrite app_nil_r.
  - destruct (decide (TI.hostname row = Some (hb_hostname p))) as [Hh|Hh];
      [destruct (decide (TI.pid row = Some (hb_pid p))) as [Hp|Hp];
       [destruct (decide (TI.state row = State.RUNNING)) as [Hs|Hs]|]|].
    + rewrite (heartbeat_holder_running _ _ _ _ _ H Hh Hp Hs). exists [].
      simpl. now rewrite app_nil_r.
    + rewrite (heartbeat_holder_not_running _ _ _ _ _ H Hh Hp Hs). exists [].
      now rewrite app_nil_r.
    + rewrite (heartbeat_elsewhere _ _ _ _ _ H (or_intror Hp)). exists [].
      now rewrite app_nil_r.
    + rewrite (heartbeat_elsewhere _ _ _ _ _ H (or_introl Hh)). exists [].
      now rewrite app_nil_r.
  - rewrite (heartbeat_not_found _ _ _ _ H). exists []. now rewrite app_nil_r.
  - rewrite (put_rendered_fields_found _ _ _ _ H). exists [].
    simpl. now rewrite app_nil_r.
  - rewrite (put_rendered_fields_not_found _ _ _ H). exists [].
    now rewrite app_nil_r.
Qed.

Lemma run_task_reschedule ops : forall d,
  exists l, task_reschedule (run d ops) = (task_reschedule d ++ l)%list.
Proof.
  induction ops as [|op ops IH]; intros d.
  - exists []. simpl. now rewrite app_nil_r.
  - destruct (IH (step d op)) as [l2 H2].
    destruct (step_task_reschedule d op) as [l1 H1].
    exists (l1 ++ l2)%list.
    change (run d (op :: ops)) with (run (step d op) ops).
    rewrite H2, H1. symmetry. apply app_assoc.
Qed.

(** Every identifier in a trigger table is below the next one. *)
Lemma next_trigger_id_above l row n :
  In row l -> Trigger.id row = Some n -> n < next_trigger_id l.
Proof.
  unfold next_trigger_id. induction l as [|x l IH]; simpl; [tauto|].
  intros [->|Hin] Hid.
  - rewrite Hid. simpl. lia.
  - specialize (IH Hin Hid). lia.
Qed.

(** ** Start-run *)

(** C3: for an existing instance, start-run succeeds only from QUEUED; from
    any other state it is a 409 conflict whose detail carries the previous
    state, and the store, the instance included, is left as it was. *)
Theorem ti_run_only_from_queued d i p row :
  task_instance d !! i = Some row ->
  (forall ctx d', start_run d i p = (Ok ctx, d') -> TI.state row = State.QUEUED) /\
  (TI.state row <> State.QUEUED ->
   start_run d i p
   = (Raise (HTTPException HTTP_409_CONFLICT (invalid_state (TI.state row))), d) /\
   task_instance (snd (start_run d i p)) !! i = Some row).
Proof.
  intros H. split.
  - intros ctx d' Hok.
    destruct (decide (TI.state row = State.QUEUED)) as [Hs|Hs]; [exact Hs|].
    rewrite (start_run_invalid_state _ _ _ _ H Hs) in Hok. discriminate.
  - intros Hs. rewrite (start_run_invalid_state _ _ _ _ H Hs). simpl. auto.
Qed.

Lemma ti_run_only_from_queued_witness :
  task_instance (sample_db State.RUNNING) !! "ti-1" = Some (sample_ti State.RUNNING) /\
  start_run (sample_db State.RUNNING) "ti-1" sample_enter
  = (Raise (HTTPException HTTP_409_CONFLICT (invalid_state State.RUNNING)),
     sample_db State.RUNNING).
Proof.
  split; [reflexivity|].
  apply (ti_run_only_from_queued (sample_db State.RUNNING) "ti-1" sample_enter
           (sample_ti State.RUNNING)); [reflexivity | discriminate].
Defined.

(** C4: from QUEUED, a successful start-run leaves the instance RUNNING with
    the caller's hostname, unixname and pid and a null end date, and answers
    with the context of the run that has the instance's dag id and run id;
    it succeeds when exactly one run matches.  When no run matches, a
    ValueError leaves the handler: the answer is an internal server error
    (500), not a not-found (404). *)
Theorem ti_run_from_queued d i p row :
  task_instance d !! i = Some row ->
  TI.state row = State.QUEUED ->
  (forall ctx d', start_run d i p = (Ok ctx, d') ->
     exists row',
       task_instance d' !! i = Some row' /\
       TI.state row' = State.RUNNING /\
       TI.hostname row' = Some (er_hostname p) /\
       TI.unixname row' = Some (er_unixname p) /\
       TI.pid row' = Some (er_pid p) /\
       TI.end_date row' = None /\
       In (dag_run ctx) (dag_run_table d) /\
       DR.dag_id (dag_run ctx) = TI.dag_id row /\
       DR.run_id (dag_run ctx) = TI.run_id row) /\
  (forall dr, filter_by (TI.dag_id row) (TI.run_id row) (dag_run_table d) = [dr] ->
     start_run d i p
     = (Ok {| dag_run := dr; variables := []; connections := [] |},
        set_task_instance (<[i := started p row]> (task_instance d)) d)) /\
  (filter_by (TI.dag_id row) (TI.run_id row) (dag_run_table d) = [] ->
     (exists message, start_run d i p = (Raise (ValueError message), d)) /\
     status_of 200 (fst (start_run d i p)) = HTTP_500_INTERNAL_SERVER_ERROR /\
     status_of 200 (fst (start_run d i p)) <> HTTP_404_NOT_FOUND).
Proof.
  intros H Hs. pose proof (start_run_queued _ _ p _ H Hs) as E.
  split; [|split].
  - intros ctx d' Hok. rewrite Hok in E.
    destruct (filter_by _ _ _) as [|dr [|dr' l]] eqn:F; try discriminate.
    injection E as -> ->. exists (started p row). simpl.
    rewrite lookup_insert_eq.
    assert (In dr (filter_by (TI.dag_id row) (TI.run_id row) (dag_run_table d)))
      as Hin by (rewrite F; now left).
    apply filter_by_In in Hin. tauto.
  - intros dr F. now rewrite F in E.
  - intros F. rewrite F in E. rewrite E. simpl. split; [eauto|].
    split; [reflexivity | discriminate].
Qed.

Lemma ti_run_from_queued_witness :
  task_instance (sample_db State.QUEUED) !! "ti-1" = Some (sample_ti State.QUEUED) /\
  TI.state (sample_ti State.QUEUED) = State.QUEUED /\
  start_run (sample_db State.QUEUED) "ti-1" sample_enter
  = (Ok {| dag_run := sample_run; variables := []; connections := [] |},
     set_task_instance
       (<["ti-1" := started sample_enter (sample_ti State.QUEUED)]>
          (task_instance (sample_db State.QUEUED)))
       (sample_db State.QUEUED)).
Proof.
  split; [reflexivity|]. split; [reflexivity|].
  apply (ti_run_from_queued (sample_db State.QUEUED) "ti-1" sample_enter
           (sample_ti State.QUEUED)); reflexivity.
Defined.

(** ** Heartbeat *)

(** C6: for an existing instance, a heartbeat whose (hostname, pid) is not
    the stored pair is a 409 conflict with reason running_elsewhere whose
    detail carries the stored hostname and pid; the store, and with it
    last_heartbeat_at and every other field, is left as it was. *)
Theorem heartbeat_running_elsewhere d utcnow i p row :
  task_instance d !! i = Some row ->
  (TI.hostname row, TI.pid row) <> (Some (hb_hostname p), Some (hb_pid p)) ->
  heartbeat d utcnow i p
  = (Raise (HTTPException HTTP_409_CONFLICT
              (running_elsewhere (TI.hostname row) (TI.pid row))), d) /\
  reason (running_elsewhere (TI.hostname row) (TI.pid row)) = Some "running_elsewhere" /\
  task_instance (snd (heartbeat d utcnow i p)) !! i = Some row.
Proof.
  intros H Hne.
  assert (TI.hostname row <> Some (hb_hostname p) \/ TI.pid row <> Some (hb_pid p))
    as Hor.
  { destruct (decide (TI.hostname row = Some (hb_hostname p))) as [Hh|Hh]; [|now left].
    right. intros Hp. apply Hne. now rewrite Hh, Hp. }
  rewrite (heartbeat_elsewhere _ _ _ _ _ H Hor). simpl. auto.
Qed.

Lemma heartbeat_running_elsewhere_witness :
  task_instance (sample_db State.RUNNING) !! "ti-1" = Some (sample_ti State.RUNNING) /\
  heartbeat (sample_db State.RUNNING) 200 "ti-1" {| hb_hostname := "h1"; hb_pid := 2000 |}
  = (Raise (HTTPException HTTP_409_CONFLICT (running_elsewhere (Some "h1") (Some 1000))),
     sample_db State.RUNNING).
Proof.
  split; [reflexivity|].
  apply (heartbeat_running_elsewhere (sample_db State.RUNNING) 200 "ti-1"
           {| hb_hostname := "h1"; hb_pid := 2000 |} (sample_ti State.RUNNING));
    [reflexivity | discriminate].
Defined.

(** C5, as the spec states it, fails: the RUNNING sample instance, whose
    stored heartbeat is 150, answers a heartbeat from its holder at clock
    reading 120 with success and stores 120: the timestamp is written, but
    it does not advance. *)
Lemma heartbeat_by_holder_counterexample :
  task_instance (sample_db State.RUNNING) !! "ti-1" = Some (sample_ti State.RUNNING) /\
  TI.state (sample_ti State.RUNNING) = State.RUNNING /\
  TI.hostname (sample_ti State.RUNNING) = Some "h1" /\
  TI.pid (sample_ti State.RUNNING) = Some 1000 /\
  heartbeat (sample_db State.RUNNING) 120 "ti-1" {| hb_hostname := "h1"; hb_pid := 1000 |}
  = (Ok tt,
     set_task_instance
       {[ "ti-1" := TI.set_last_heartbeat_at (Some 120) (sample_ti State.RUNNING) ]}
       (sample_db State.RUNNING)) /\
  ~ advances (TI.last_heartbeat_at (sample_ti State.RUNNING))
      (TI.last_heartbeat_at
         (TI.set_last_heartbeat_at (Some 120) (sample_ti State.RUNNING))).
Proof.
  repeat (split; [reflexivity|]).
  unfold advances. simpl. lia.
Qed.

(** C5, amended: for a RUNNING instance, a heartbeat from the stored
    (hostname, pid) succeeds, writes the clock reading to last_heartbeat_at
    in a single write and changes no other field; the route does not
    compare the reading with the stored value, so the timestamp strictly
    advances exactly when the clock reading is later than the stored
    heartbeat (or none is stored). *)
Theorem heartbeat_by_holder_writes_clock d utcnow i p row :
  task_instance d !! i = Some row ->
  TI.state row = State.RUNNING ->
  TI.hostname row = Some (hb_hostname p) ->
  TI.pid row = Some (hb_pid p) ->
  exists row',
    heartbeat d utcnow i p
    = (Ok tt, set_task_instance (<[i := row']> (task_instance d)) d) /\
    TI.last_heartbeat_at row' = Some utcnow /\
    row' = TI.mk (TI.id row) (TI.task_id row) (TI.dag_id row) (TI.run_id row)
             (TI.try_number row) (TI.map_index row) (TI.state row)
             (TI.hostname row) (TI.unixname row) (TI.pid row)
             (TI.start_date row) (TI.end_date row) (TI.duration row)
             (TI.next_method row) (TI.next_kwargs row) (TI.trigger_id row)
             (TI.trigger_timeout row) (Some utcnow) /\
    (advances (TI.last_heartbeat_at row) (TI.last_heartbeat_at row') <->
     forall t, TI.last_heartbeat_at row = Some t -> t < utcnow).
Proof.
  intros H Hs Hh Hp.
  exists (TI.set_last_heartbeat_at (Some utcnow) row).
  rewrite (heartbeat_holder_running _ _ _ _ _ H Hh Hp Hs).
  split; [reflexivity|]. split; [reflexivity|]. split; [reflexivity|].
  unfold advances. simpl. split.
  - destruct (TI.last_heartbeat_at row) as [t|]; [|discriminate].
    intros Hlt t' [= <-]. exact Hlt.
  - intros Hclock. destruct (TI.last_heartbeat_at row) as [t|]; [|exact I].
    now apply Hclock.
Qed.

Lemma heartbeat_by_holder_writes_clock_witness :
  task_instance (sample_db State.RUNNING) !! "ti-1" = Some (sample_ti State.RUNNING) /\
  exists row',
    heartbeat (sample_db State.RUNNING) 200 "ti-1" {| hb_hostname := "h1"; hb_pid := 1000 |}
    = (Ok tt, set_task_instance
                (<["ti-1" := row']> (task_instance (sample_db State.RUNNING)))
                (sample_db State.RUNNING)) /\
    TI.last_heartbeat_at row' = Some 200.
Proof.
  split; [reflexivity|].
  destruct (heartbeat_by_holder_writes_clock (sample_db State.RUNNING) 200 "ti-1"
              {| hb_hostname := "h1"; hb_pid := 1000 |} (sample_ti State.RUNNING))
    as (row' & E & Hl & _); [reflexivity..|].
  exists row'. split; [exact E | exact Hl].
Defined.

(** C2, as the spec states it, fails: a SUCCESS instance held by
    ("h1", 1000) answers a heartbeat from ("h2", 2000) with
    running_elsewhere, not with not_running. *)
Lemma heartbeat_not_running_counterexample :
  task_instance (sample_db State.SUCCESS) !! "ti-1" = Some (sample_ti State.SUCCESS) /\
  TI.state (sample_ti State.SUCCESS) <> State.RUNNING /\
  heartbeat (sample_db State.SUCCESS) 200 "ti-1" {| hb_hostname := "h2"; hb_pid := 2000 |}
  = (Raise (HTTPException HTTP_409_CONFLICT (running_elsewhere (Some "h1") (Some 1000))),
     sample_db State.SUCCESS) /\
  fst (heartbeat (sample_db State.SUCCESS) 200 "ti-1"
         {| hb_hostname := "h2"; hb_pid := 2000 |})
  <> Raise (HTTPException HTTP_409_CONFLICT (not_running State.SUCCESS)).
Proof.
  split; [reflexivity|]. split; [discriminate|].
  assert (heartbeat (sample_db State.SUCCESS) 200 "ti-1"
            {| hb_hostname := "h2"; hb_pid := 2000 |}
          = (Raise (HTTPException HTTP_409_CONFLICT
                      (running_elsewhere (Some "h1") (Some 1000))),
             sample_db State.SUCCESS)) as E.
  { apply (heartbeat_elsewhere _ _ _ _ (sample_ti State.SUCCESS)); [reflexivity|].
    left. discriminate. }
  split; [exact E|]. rewrite E. discriminate.
Qed.

(** C2, amended: for an existing instance whose state is not RUNNING, a
    heartbeat from the stored (hostname, pid) is a 409 conflict with reason
    not_running carrying the current state; from any other (hostname, pid)
    it is a 409 conflict with reason running_elsewhere: the identity is
    checked before the state.  Either way the store is left as it was. *)
Theorem heartbeat_not_running d utcnow i p row :
  task_instance d !! i = Some row ->
  TI.state row <> State.RUNNING ->
  heartbeat d utcnow i p
  = (Raise (HTTPException HTTP_409_CONFLICT
              (if decide (TI.hostname row = Some (hb_hostname p) /\
                          TI.pid row = Some (hb_pid p))
               then not_running (TI.state row)
               else running_elsewhere (TI.hostname row) (TI.pid row))), d).
Proof.
  intros H Hs. destruct (decide _) as [[Hh Hp]|Hn].
  - apply heartbeat_holder_not_running; assumption.
  - apply heartbeat_elsewhere; [assumption|].
    destruct (decide (TI.hostname row = Some (hb_hostname p))) as [Hh|Hh]; [|now left].
    right. intros Hp. apply Hn. now split.
Qed.

Lemma heartbeat_not_running_witness :
  task_instance (sample_db State.SUCCESS) !! "ti-1" = Some (sample_ti State.SUCCESS) /\
  TI.state (sample_ti State.SUCCESS) <> State.RUNNING /\
  heartbeat (sample_db State.SUCCESS) 200 "ti-1" {| hb_hostname := "h1"; hb_pid := 1000 |}
  = (Raise (HTTPException HTTP_409_CONFLICT (not_running State.SUCCESS)),
     sample_db State.SUCCESS).
Proof.
  split; [reflexivity|]. split; [discriminate|].
  apply (heartbeat_not_running (sample_db State.SUCCESS) 200 "ti-1"
           {| hb_hostname := "h1"; hb_pid := 1000 |} (sample_ti State.SUCCESS));
    [reflexivity | discriminate].
Defined.

(** ** Update-state *)

(** Start-run on an instance in a terminal state is a conflict and leaves
    the store as it was. *)
Lemma start_run_terminal d i p row :
  task_instance d !! i = Some row ->
  State.is_terminal (TI.state row) = true ->
  start_run d i p
  = (Raise (HTTPException HTTP_409_CONFLICT (invalid_state (TI.state row))), d).
Proof.
  intros H Ht. apply start_run_invalid_state; [assumption|].
  intros E. rewrite E in Ht. discriminate.
Qed.

(** A terminal update is accepted whatever state the instance is in: the
    previous state is read and not looked at. *)
Lemma update_state_terminal_state d utcnow i p row :
  task_instance d !! i = Some row ->
  fst (update_state d utcnow i (Terminal p)) = Ok tt /\
  TI.state <$> task_instance (snd (update_state d utcnow i (Terminal p))) !! i
  = Some (TerminalTIState.to_state (tp_state p)).
Proof.
  intros H. rewrite (update_state_terminal _ _ _ _ _ H). simpl.
  rewrite lookup_insert_eq. simpl. unfold terminated.
  destruct (decide _); auto.
Qed.

(** C1, where the routes do not do what the claim says: update-state on an
    instance in the terminal state SUCCESS is not rejected as a conflict.
    A terminal payload, here with the state SUCCESS the instance is already
    in, is answered with success and rewrites the instance (end date and
    duration). *)
Theorem update_state_on_terminal_instance :
  State.is_terminal (TI.state (sample_ti State.SUCCESS)) = true /\
  update_state (sample_db State.SUCCESS) 200 "ti-1"
    (Terminal {| tp_state := TerminalTIState.SUCCESS; tp_end_date := 180 |})
  = (Ok tt,
     set_task_instance
       {[ "ti-1" :=
            TI.mk "ti-1" "task-a" "dag-a" "run-1" 1 (-1) State.SUCCESS
              (Some "h1") (Some "airflow") (Some 1000)
              (Some 100) (Some 180) (Some 80) None None None None (Some 150) ]}
       (sample_db State.SUCCESS)) /\
  snd (update_state (sample_db State.SUCCESS) 200 "ti-1"
         (Terminal {| tp_state := TerminalTIState.SUCCESS; tp_end_date := 180 |}))
  <> sample_db State.SUCCESS.
Proof.
  split; [reflexivity|].
  rewrite (update_state_terminal _ _ _ _ (sample_ti State.SUCCESS)) by reflexivity.
  split; [reflexivity|].
  simpl. intros E.
  assert (TI.end_date <$> task_instance (sample_db State.SUCCESS) !! "ti-1"
          = Some (Some 180)) as Hd.
  { rewrite <- E. simpl. rewrite lookup_insert_eq. reflexivity. }
  discriminate Hd.
Qed.

(** C7: for an existing instance, a terminal update with state FAILED and
    end date [t] succeeds and leaves the state FAILED, next_method and
    next_kwargs null whatever they were, and the duration [t] minus the
    stored start date (null when no start date is stored). *)
Theorem update_state_failed d utcnow i t row :
  task_instance d !! i = Some row ->
  exists row',
    update_state d utcnow i
      (Terminal {| tp_state := TerminalTIState.FAILED; tp_end_date := t |})
    = (Ok tt, set_task_instance (<[i := row']> (task_instance d)) d) /\
    TI.state row' = State.FAILED /\
    TI.next_method row' = None /\
    TI.next_kwargs row' = None /\
    (forall start_date, TI.start_date row = Some start_date ->
                        TI.duration row' = Some (t - start_date)) /\
    (TI.start_date row = None -> TI.duration row' = None).
Proof.
  intros H. eexists. split; [apply update_state_terminal; exact H|].
  unfold terminated, duration_expression. simpl.
  repeat split; try reflexivity.
  - intros s ->. reflexivity.
  - intros ->. reflexivity.
Qed.

Lemma update_state_failed_witness :
  task_instance (sample_db State.RUNNING) !! "ti-1" = Some (sample_ti State.RUNNING) /\
  exists row',
    fst (update_state (sample_db State.RUNNING) 200 "ti-1"
           (Terminal {| tp_state := TerminalTIState.FAILED; tp_end_date := 180 |}))
    = Ok tt /\
    TI.state row' = State.FAILED /\
    TI.next_method row' = None /\
    TI.duration row' = Some 80.
Proof.
  split; [reflexivity|].
  destruct (update_state_failed (sample_db State.RUNNING) 200 "ti-1" 180
              (sample_ti State.RUNNING)) as (row' & E & Hs & Hm & _ & Hd & _);
    [reflexivity|].
  exists row'. rewrite E. repeat split; try assumption.
  apply (Hd 100). reflexivity.
Defined.

(** What a deferral does to the store: one trigger row with a fresh
    identifier is appended, and the instance is DEFERRED with the payload's
    continuation and the absolute timeout; the trigger_id column is written
    from the trigger object before any flush has given it an identifier. *)
Lemma update_state_deferred_effect d utcnow i p row :
  task_instance d !! i = Some row ->
  exists row' trigger_row n d',
    update_state d utcnow i (Deferred p) = (Ok tt, d') /\
    trigger d' = (trigger d ++ [trigger_row])%list /\
    Trigger.classpath trigger_row = dp_classpath p /\
    Trigger.kwargs trigger_row = dp_trigger_kwargs p /\
    Trigger.id trigger_row = Some n /\
    (forall old, In old (trigger d) -> Trigger.id old <> Some n) /\
    task_instance d' !! i = Some row' /\
    TI.state row' = State.DEFERRED /\
    TI.next_method row' = Some (dp_next_method p) /\
    TI.next_kwargs row' = Some (dp_trigger_kwargs p) /\
    TI.trigger_timeout row' = (fun delta => utcnow + delta) <$> dp_trigger_timeout p /\
    TI.trigger_id row' = None.
Proof.
  intros H. eexists _, _, _, _.
  split; [apply update_state_deferred; exact H|]. simpl.
  rewrite lookup_insert_eq. repeat split.
  intros old Hin Hid. pose proof (next_trigger_id_above _ _ _ Hin Hid). lia.
Qed.

(** Deferring an already DEFERRED instance again appends a second trigger
    row, with an identifier of its own. *)
Lemma update_state_deferred_twice d utcnow utcnow' i p row :
  task_instance d !! i = Some row ->
  exists first second,
    trigger (run d [UpdateState utcnow i (Deferred p); UpdateState utcnow' i (Deferred p)])
    = (trigger d ++ [first; second])%list /\
    Trigger.id first <> Trigger.id second.
Proof.
  intros H. simpl. rewrite (update_state_deferred _ _ _ _ _ H). simpl.
  erewrite update_state_deferred by (simpl; apply lookup_insert_eq). simpl.
  eexists _, _. split; [rewrite <- app_assoc; reflexivity|].
  unfold inserted_trigger. simpl. intros [= E].
  assert (next_trigger_id (trigger d) < next_trigger_id
            (trigger d ++ [Trigger.mk (Some (next_trigger_id (trigger d)))
                             (dp_classpath p) (dp_trigger_kwargs p)])) as Hlt.
  { apply (next_trigger_id_above _
             (Trigger.mk (Some (next_trigger_id (trigger d)))
                (dp_classpath p) (dp_trigger_kwargs p))); [|reflexivity].
    apply in_or_app. right. now left. }
  lia.
Qed.

(** C9, where the route does not do what the claim says: a deferral of the
    RUNNING sample instance at clock reading 200 creates the one trigger row
    (identifier 1, the payload's classpath and kwargs), leaves the instance
    DEFERRED with the payload's continuation and the timeout 200 + 10, but
    leaves trigger_id null: the identifier is not linked into the
    instance. *)
Theorem deferral_does_not_link_trigger :
  update_state (sample_db State.RUNNING) 200 "ti-1" (Deferred sample_deferred)
  = (Ok tt,
     mkDatabase
       {[ "ti-1" :=
            TI.mk "ti-1" "task-a" "dag-a" "run-1" 1 (-1) State.DEFERRED
              (Some "h1") (Some "airflow") (Some 1000)
              (Some 100) None None
              (Some "execute_callback") (Some [("key", "value")])
              None (Some 210) (Some 150) ]}
       [sample_run]
       [Trigger.mk (Some 1) "my-classpath" [("key", "value")]]
       [] ∅).
Proof.
  rewrite (update_state_deferred _ _ _ _ (sample_ti State.RUNNING)) by reflexivity.
  reflexivity.
Qed.

(** C10: for an existing instance, a reschedule update succeeds, appends
    exactly one reschedule record whose task id, dag id, run id, try number
    and map index are the instance's at the call, sets the duration to the
    payload end date minus the start date, clears next_method and
    next_kwargs and sets the state to UP_FOR_RESCHEDULE; no later call
    changes or removes the record. *)
Theorem update_state_reschedule_record d utcnow i p row :
  task_instance d !! i = Some row ->
  exists row' record d',
    update_state d utcnow i (Reschedule p) = (Ok tt, d') /\
    task_reschedule d' = (task_reschedule d ++ [record])%list /\
    TaskReschedule.task_id record = TI.task_id row /\
    TaskReschedule.dag_id record = TI.dag_id row /\
    TaskReschedule.run_id record = TI.run_id row /\
    TaskReschedule.try_number record = TI.try_number row /\
    TaskReschedule.map_index record = TI.map_index row /\
    task_instance d' !! i = Some row' /\
    TI.state row' = State.UP_FOR_RESCHEDULE /\
    TI.next_method row' = None /\
    TI.next_kwargs row' = None /\
    TI.duration row' = (fun start_date => rp_end_date p - start_date) <$> TI.start_date row /\
    (forall ops, exists l,
        task_reschedule (run d' ops) = (task_reschedule d ++ [record] ++ l)%list).
Proof.
  intros H. eexists _, _, _.
  split; [apply update_state_reschedule; exact H|]. simpl.
  rewrite lookup_insert_eq. repeat split.
  intros ops.
  destruct (run_task_reschedule ops
              (mkDatabase (<[i := rescheduled p row]> (task_instance d))
                 (dag_run_table d) (trigger d)
                 (task_reschedule d ++ [reschedule_record utcnow p row])
                 (rendered_task_instance_fields d))) as [l Hl].
  exists l. rewrite Hl. simpl. rewrite <- app_assoc. reflexivity.
Qed.

Lemma update_state_reschedule_record_witness :
  task_instance (sample_db State.RUNNING) !! "ti-1" = Some (sample_ti State.RUNNING) /\
  exists record,
    task_reschedule
      (snd (update_state (sample_db State.RUNNING) 200 "ti-1" (Reschedule sample_reschedule)))
    = [record] /\
    TaskReschedule.task_id record = "task-a" /\
    TaskReschedule.map_index record = -1.
Proof.
  split; [reflexivity|].
  destruct (update_state_reschedule_record (sample_db State.RUNNING) 200 "ti-1"
              sample_reschedule (sample_ti State.RUNNING))
    as (row' & record & d' & E & Hr & Ht & _ & _ & _ & Hm & _); [reflexivity|].
  exists record. rewrite E. simpl. split; [exact Hr|]. split; [exact Ht | exact Hm].
Defined.

(** ** The continuation invariant *)







(** ** More on the routes: shared facts *)

(** Every call either leaves the store alone, or rewrites the addressed row
    along a transition and appends that transition's records, or stores the
    rendered fields of the addressed instance. *)
Lemma step_cases d op :
  step d op = d \/
  (exists row row',
      task_instance d !! target op = Some row /\
      transition op row row' /\
      step d op
      = mkDatabase (<[target op := row']> (task_instance d)) (dag_run_table d)
          (trigger d ++ new_triggers d op)
          (task_reschedule d ++ new_task_reschedules op row)
          (rendered_task_instance_fields d)) \/
  (exists row p,
      op = PutRenderedFields (target op) p /\
      task_instance d !! target op = Some row /\
      step d op
      = set_rendered_task_instance_fields
          (<[TI.id row := p]> (rendered_task_instance_fields d)) d).
Proof.
  destruct op as [i p|utcnow i p|utcnow i p|i p]; simpl;
    destruct (task_instance d !! i) as [row|] eqn:H.
  - destruct (decide (TI.state row = State.QUEUED)) as [Hs|Hs].
    + rewrite (start_run_queued _ _ _ _ H Hs).
      destruct (filter_by _ _ _) as [|dr [|dr' l]]; simpl; auto.
      right. left. exists row, (started p row).
      split; [reflexivity|]. split; [now constructor|].
      unfold set_task_instance. now rewrite !app_nil_r.
    + rewrite (start_run_invalid_state _ _ _ _ H Hs). auto.
  - rewrite (start_run_not_found _ _ _ H). auto.
  - right. left. exists row. destruct p as [p|p|p].
    + rewrite (update_state_terminal _ _ _ _ _ H).
      exists (terminated p row). split; [reflexivity|]. split; [constructor|].
      unfold set_task_instance. simpl. now rewrite !app_nil_r.
    + rewrite (update_state_deferred _ _ _ _ _ H).
      exists (deferred utcnow p row). split; [reflexivity|]. split; [constructor|].
      simpl. now rewrite !app_nil_r.
    + rewrite (update_state_reschedule _ _ _ _ _ H).
      exists (rescheduled p row). split; [reflexivity|]. split; [constructor|].
      simpl. now rewrite !app_nil_r.
  - rewrite (update_state_not_found _ _ _ _ H). auto.
  - destruct (decide (TI.hostname row = Some (hb_hostname p))) as [Hh|Hh];
      [destruct (decide (TI.pid row = Some (hb_pid p))) as [Hp|Hp];
       [destruct (decide (TI.state row = State.RUNNING)) as [Hs|Hs]|]|].
    + rewrite (heartbeat_holder_running _ _ _ _ _ H Hh Hp Hs).
      right. left. exists row, (TI.set_last_heartbeat_at (Some utcnow) row).
      split; [reflexivity|]. split; [now constructor|].
      unfold set_task_instance. simpl. now rewrite !app_nil_r.
    + rewrite (heartbeat_holder_not_running _ _ _ _ _ H Hh Hp Hs). auto.
    + rewrite (heartbeat_elsewhere _ _ _ _ _ H (or_intror Hp)). auto.
    + rewrite (heartbeat_elsewhere _ _ _ _ _ H (or_introl Hh)). auto.
  - rewrite (heartbeat_not_found _ _ _ _ H). auto.
  - rewrite (put_rendered_fields_found _ _ _ _ H).
    right. right. exists row, p. auto.
  - rewrite (put_rendered_fields_not_found _ _ _ H). auto.
Qed.

(** What a successful start-run says about the store it met. *)
Lemma start_run_ok_inv d i p ctx d' :
  start_run d i p = (Ok ctx, d') ->
  exists row dr,
    task_instance d !! i = Some row /\
    TI.state row = State.QUEUED /\
    filter_by (TI.dag_id row) (TI.run_id row) (dag_run_table d) = [dr] /\
    ctx = {| dag_run := dr; variables := []; connections := [] |} /\
    d' = set_task_instance (<[i := started p row]> (task_instance d)) d.
Proof.
  intros Hok. destruct (task_instance d !! i) as [row|] eqn:H.
  - destruct (decide (TI.state row = State.QUEUED)) as [Hs|Hs].
    + rewrite (start_run_queued _ _ _ _ H Hs) in Hok.
      destruct (filter_by _ _ _) as [|dr [|dr' l]] eqn:F; try discriminate.
      injection Hok as <- <-. exists row, dr. auto.
    + rewrite (start_run_invalid_state _ _ _ _ H Hs) in Hok. discriminate.
  - rewrite (start_run_not_found _ _ _ H) in Hok. discriminate.
Qed.

(** No transition changes the columns that identify the row. *)
Lemma transition_identity_columns op row row' :
  transition op row row' -> identity_columns row' = identity_columns row.
Proof.
  intros Ht. destruct Ht; try reflexivity.
  unfold terminated. destruct (decide _); reflexivity.
Qed.

(** ** Missing instances *)

(** X1: a call that addresses an identifier with no instance is answered
    with 404 (detail not_found for start-run, update-state and heartbeat, no
    detail for put-rendered-fields), whatever the payload, and leaves the
    store as it was. *)
Theorem call_missing_instance d op :
  task_instance d !! target op = None ->
  call d op
  = (Raise (HTTPException HTTP_404_NOT_FOUND
              (match op with
               | PutRenderedFields _ _ => no_detail
               | _ => not_found
               end)), d).
Proof.
  intros H. destruct op as [i p|utcnow i p|utcnow i p|i p]; simpl in *.
  - now rewrite (start_run_not_found _ _ _ H).
  - now rewrite (update_state_not_found _ _ _ _ H).
  - now rewrite (heartbeat_not_found _ _ _ _ H).
  - now rewrite (put_rendered_fields_not_found _ _ _ H).
Qed.

Lemma call_missing_instance_witness :
  task_instance (sample_db State.RUNNING) !! "ti-2" = None /\
  call (sample_db State.RUNNING) (Heartbeat 200 "ti-2" {| hb_hostname := "h1"; hb_pid := 1000 |})
  = (Raise (HTTPException HTTP_404_NOT_FOUND not_found), sample_db State.RUNNING).
Proof.
  split; [reflexivity|].
  apply (call_missing_instance (sample_db State.RUNNING)
           (Heartbeat 200 "ti-2" {| hb_hostname := "h1"; hb_pid := 1000 |})).
  reflexivity.
Defined.

(** ** Start-run, further *)

(** X2: start-run succeeds exactly when the instance exists, is QUEUED and
    exactly one run has its dag id and run id; the answer then is that run
    with empty variables and connections. *)
Theorem start_run_succeeds_iff d i p ctx :
  fst (start_run d i p) = Ok ctx <->
  exists row dr,
    task_instance d !! i = Some row /\
    TI.state row = State.QUEUED /\
    filter_by (TI.dag_id row) (TI.run_id row) (dag_run_table d) = [dr] /\
    ctx = {| dag_run := dr; variables := []; connections := [] |}.
Proof.
  split.
  - intros Hok.
    destruct (start_run_ok_inv d i p ctx (snd (start_run d i p)))
      as (row & dr & H & Hs & F & E & _).
    + rewrite <- Hok. now destruct (start_run d i p).
    + exists row, dr. auto.
  - intros (row & dr & H & Hs & F & ->).
    rewrite (start_run_queued _ _ _ _ H Hs), F. reflexivity.
Qed.

(** X3: when more than one run has the dag id and run id of a QUEUED
    instance, start-run is answered with 500 and the detail "Database error
    occurred" (the MultipleResultsFound of one_or_none is an
    SQLAlchemyError), and the store is left as it was. *)
Theorem start_run_multiple_runs d i p row dr dr' l :
  task_instance d !! i = Some row ->
  TI.state row = State.QUEUED ->
  filter_by (TI.dag_id row) (TI.run_id row) (dag_run_table d) = dr :: dr' :: l ->
  start_run d i p
  = (Raise (HTTPException HTTP_500_INTERNAL_SERVER_ERROR database_error_occurred), d).
Proof.
  intros H Hs F. rewrite (start_run_queued _ _ _ _ H Hs), F. reflexivity.
Qed.

Lemma start_run_multiple_runs_witness :
  start_run sample_db_two_runs "ti-1" sample_enter
  = (Raise (HTTPException HTTP_500_INTERNAL_SERVER_ERROR database_error_occurred),
     sample_db_two_runs).
Proof.
  apply (start_run_multiple_runs sample_db_two_runs "ti-1" sample_enter
           (sample_ti State.QUEUED) sample_run sample_run []); reflexivity.
Defined.

(** X4: start-run does not succeed twice in a row: after a successful
    start-run, a second one, with any payload, is a 409 conflict with
    previous state RUNNING, and the holder stays the first caller. *)
Theorem start_run_twice d i p p' ctx d' :
  start_run d i p = (Ok ctx, d') ->
  start_run d' i p'
  = (Raise (HTTPException HTTP_409_CONFLICT (invalid_state State.RUNNING)), d') /\
  holder <$> task_instance d' !! i
  = Some (Some (er_hostname p), Some (er_unixname p), Some (er_pid p)).
Proof.
  intros Hok. apply start_run_ok_inv in Hok as (row & dr & H & Hs & F & -> & ->).
  assert (task_instance
            (set_task_instance (<[i := started p row]> (task_instance d)) d) !! i
          = Some (started p row)) as H' by (simpl; apply lookup_insert_eq).
  split.
  - rewrite (start_run_invalid_state _ _ p' _ H'); [reflexivity | discriminate].
  - rewrite H'. reflexivity.
Qed.

Lemma start_run_twice_witness :
  exists d',
    fst (start_run (sample_db State.QUEUED) "ti-1" sample_enter)
    = Ok {| dag_run := sample_run; variables := []; connections := [] |} /\
    start_run d' "ti-1" {| er_hostname := "h3"; er_unixname := "other"; er_pid := 3000 |}
    = (Raise (HTTPException HTTP_409_CONFLICT (invalid_state State.RUNNING)), d').
Proof.
  exists (snd (start_run (sample_db State.QUEUED) "ti-1" sample_enter)).
  split; [reflexivity|].
  apply (start_run_twice (sample_db State.QUEUED) "ti-1" sample_enter
           {| er_hostname := "h3"; er_unixname := "other"; er_pid := 3000 |}
           {| dag_run := sample_run; variables := []; connections := [] |}).
  reflexivity.
Defined.

(** X5: after a successful start-run, a heartbeat with the hostname and pid
    of the start-run payload succeeds, and a heartbeat with any other
    hostname or pid is a 409 running_elsewhere that names the payload's
    hostname and pid. *)
Theorem start_run_then_heartbeat d i p ctx d' utcnow hb :
  start_run d i p = (Ok ctx, d') ->
  (hb_hostname hb = er_hostname p /\ hb_pid hb = er_pid p ->
   fst (heartbeat d' utcnow i hb) = Ok tt) /\
  (hb_hostname hb <> er_hostname p \/ hb_pid hb <> er_pid p ->
   heartbeat d' utcnow i hb
   = (Raise (HTTPException HTTP_409_CONFLICT
               (running_elsewhere (Some (er_hostname p)) (Some (er_pid p)))), d')).
Proof.
  intros Hok. apply start_run_ok_inv in Hok as (row & dr & H & Hs & F & -> & ->).
  assert (task_instance
            (set_task_instance (<[i := started p row]> (task_instance d)) d) !! i
          = Some (started p row)) as H' by (simpl; apply lookup_insert_eq).
  split.
  - intros [Hh Hp].
    rewrite (heartbeat_holder_running _ utcnow _ hb _ H'); simpl; congruence.
  - intros Hne.
    rewrite (heartbeat_elsewhere _ utcnow _ hb _ H'); [reflexivity|].
    simpl. destruct Hne as [Hne|Hne]; [left | right]; congruence.
Qed.

Lemma start_run_then_heartbeat_witness :
  fst (heartbeat (snd (start_run (sample_db State.QUEUED) "ti-1" sample_enter)) 200 "ti-1"
         {| hb_hostname := "h2"; hb_pid := 2000 |})
  = Ok tt.
Proof.
  apply (start_run_then_heartbeat (sample_db State.QUEUED) "ti-1" sample_enter
           {| dag_run := sample_run; variables := []; connections := [] |}
           (snd (start_run (sample_db State.QUEUED) "ti-1" sample_enter)) 200
           {| hb_hostname := "h2"; hb_pid := 2000 |}); [reflexivity|].
  split; reflexivity.
Defined.

(** ** Heartbeat, further *)

(** X6: a heartbeat succeeds exactly when the instance exists, is RUNNING
    and the stored hostname and pid are the payload's. *)
Theorem heartbeat_succeeds_iff d utcnow i p :
  fst (heartbeat d utcnow i p) = Ok tt <->
  exists row,
    task_instance d !! i = Some row /\
    TI.state row = State.RUNNING /\
    TI.hostname row = Some (hb_hostname p) /\
    TI.pid row = Some (hb_pid p).
Proof.
  split.
  - intros Hok. destruct (task_instance d !! i) as [row|] eqn:H.
    + exists row. split; [reflexivity|].
      destruct (decide (TI.hostname row = Some (hb_hostname p))) as [Hh|Hh];
        [destruct (decide (TI.pid row = Some (hb_pid p))) as [Hp|Hp];
         [destruct (decide (TI.state row = State.RUNNING)) as [Hs|Hs]|]|].
      * auto.
      * rewrite (heartbeat_holder_not_running _ _ _ _ _ H Hh Hp Hs) in Hok. discriminate.
      * rewrite (heartbeat_elsewhere _ _ _ _ _ H (or_intror Hp)) in Hok. discriminate.
      * rewrite (heartbeat_elsewhere _ _ _ _ _ H (or_introl Hh)) in Hok. discriminate.
    + rewrite (heartbeat_not_found _ _ _ _ H) in Hok. discriminate.
  - intros (row & H & Hs & Hh & Hp).
    now rewrite (heartbeat_holder_running _ _ _ _ _ H Hh Hp Hs).
Qed.

(** X7: an instance without a stored hostname or without a stored pid
    answers every heartbeat, whatever its payload and whatever the state,
    with 409 running_elsewhere carrying the stored (null) identity. *)
Theorem heartbeat_without_holder d utcnow i p row :
  task_instance d !! i = Some row ->
  TI.hostname row = None \/ TI.pid row = None ->
  heartbeat d utcnow i p
  = (Raise (HTTPException HTTP_409_CONFLICT
              (running_elsewhere (TI.hostname row) (TI.pid row))), d).
Proof.
  intros H Hnone. apply heartbeat_elsewhere; [exact H|].
  destruct Hnone as [-> | ->]; [left | right]; discriminate.
Qed.

Lemma heartbeat_without_holder_witness :
  heartbeat sample_unheld_db 200 "ti-1" {| hb_hostname := "h1"; hb_pid := 1000 |}
  = (Raise (HTTPException HTTP_409_CONFLICT (running_elsewhere None None)),
     sample_unheld_db).
Proof.
  apply (heartbeat_without_holder sample_unheld_db 200 "ti-1"
           {| hb_hostname := "h1"; hb_pid := 1000 |} sample_unheld_ti);
    [reflexivity | left; reflexivity].
Defined.

(** X8: the last heartbeat wins: two heartbeats with the same payload, one
    after the other, leave the store that the second one alone would leave,
    also when the second clock reading is the earlier one. *)
Theorem heartbeat_twice d utcnow utcnow' i p :
  snd (heartbeat (snd (heartbeat d utcnow i p)) utcnow' i p)
  = snd (heartbeat d utcnow' i p).
Proof.
  destruct (task_instance d !! i) as [row|] eqn:H.
  - destruct (decide (TI.hostname row = Some (hb_hostname p))) as [Hh|Hh];
      [destruct (decide (TI.pid row = Some (hb_pid p))) as [Hp|Hp];
       [destruct (decide (TI.state row = State.RUNNING)) as [Hs|Hs]|]|].
    + rewrite (heartbeat_holder_running _ utcnow _ _ _ H Hh Hp Hs).
      rewrite (heartbeat_holder_running _ utcnow' _ _ _ H Hh Hp Hs). simpl.
      erewrite heartbeat_holder_running;
        [|simpl; apply lookup_insert_eq|exact Hh|exact Hp|exact Hs].
      unfold set_task_instance. simpl. now rewrite insert_insert_eq.
    + now rewrite !(heartbeat_holder_not_running _ _ _ _ _ H Hh Hp Hs).
    + now rewrite !(heartbeat_elsewhere _ _ _ _ _ H (or_intror Hp)).
    + now rewrite !(heartbeat_elsewhere _ _ _ _ _ H (or_introl Hh)).
  - now rewrite !(heartbeat_not_found _ _ _ _ H).
Qed.

(** ** What no call does *)

(** X9: a call touches no instance but the one it addresses. *)
Theorem step_other_instances d op j :
  target op <> j ->
  task_instance (step d op) !! j = task_instance d !! j.
Proof.
  intros Hne.
  destruct (step_cases d op) as [E|[(row & row' & _ & _ & E)|(row & p & _ & _ & E)]];
    rewrite E; simpl; [reflexivity| |reflexivity].
  now apply lookup_insert_ne.
Qed.

Lemma step_other_instances_witness :
  task_instance
    (step (sample_db State.RUNNING)
       (UpdateState 200 "ti-2" (Reschedule sample_reschedule))) !! "ti-1"
  = Some (sample_ti State.RUNNING).
Proof.
  rewrite (step_other_instances (sample_db State.RUNNING)
             (UpdateState 200 "ti-2" (Reschedule sample_reschedule)) "ti-1").
  - reflexivity.
  - discriminate.
Defined.

(** X10: whatever the sequence of calls, no instance is created or
    deleted, and no instance changes its id, task id, dag id, run id, try
    number or map index. *)
Theorem run_identity_columns ops : forall d j,
  identity_columns <$> task_instance (run d ops) !! j
  = identity_columns <$> task_instance d !! j.
Proof.
  induction ops as [|op ops IH]; intros d j; [reflexivity|].
  change (run d (op :: ops)) with (run (step d op) ops). rewrite IH.
  destruct (step_cases d op) as [E|[(row & row' & H & Ht & E)|(row & p & _ & _ & E)]];
    rewrite E; simpl; [reflexivity| |reflexivity].
  destruct (decide (target op = j)) as [<-|Hne].
  - rewrite lookup_insert_eq, H. simpl. f_equal.
    exact (transition_identity_columns _ _ _ Ht).
  - now rewrite lookup_insert_ne.
Qed.

(** X11: the run table is only read: no sequence of calls changes it. *)
Theorem run_dag_run_table ops : forall d,
  dag_run_table (run d ops) = dag_run_table d.
Proof.
  induction ops as [|op ops IH]; intros d; [reflexivity|].
  change (run d (op :: ops)) with (run (step d op) ops). rewrite IH.
  destruct (step_cases d op) as [E|[(row & row' & _ & _ & E)|(row & p & _ & _ & E)]];
    rewrite E; reflexivity.
Qed.

(** X12: a trigger row is created only by a deferral of an existing
    instance and a reschedule record only by a reschedule of an existing
    instance, one per call; every other call, and every call that is
    answered with an error, leaves both tables as they were. *)
Theorem step_auxiliary_records d op :
  (trigger (step d op) <> trigger d ->
   exists utcnow i p,
     op = UpdateState utcnow i (Deferred p) /\
     is_Some (task_instance d !! i) /\
     trigger (step d op) = (trigger d ++ [inserted_trigger (trigger d) p])%list) /\
  (task_reschedule (step d op) <> task_reschedule d ->
   exists utcnow i p row,
     op = UpdateState utcnow i (Reschedule p) /\
     task_instance d !! i = Some row /\
     task_reschedule (step d op)
     = (task_reschedule d ++ [reschedule_record utcnow p row])%list).
Proof.
  destruct (step_cases d op) as [E|[(row & row' & H & Ht & E)|(row & p & _ & _ & E)]];
    rewrite E; simpl; split; intros Hne; try (now contradiction Hne).
  - destruct Ht; simpl in *; try (rewrite app_nil_r in Hne; now contradiction Hne).
    eauto 10.
  - destruct Ht; simpl in *; try (rewrite app_nil_r in Hne; now contradiction Hne).
    eauto 10.
Qed.

Lemma step_auxiliary_records_witness :
  exists utcnow i p,
    UpdateState 200 "ti-1" (Deferred sample_deferred) = UpdateState utcnow i (Deferred p) /\
    is_Some (task_instance (sample_db State.RUNNING) !! i) /\
    trigger (step (sample_db State.RUNNING)
               (UpdateState 200 "ti-1" (Deferred sample_deferred)))
    = (trigger (sample_db State.RUNNING)
         ++ [inserted_trigger (trigger (sample_db State.RUNNING)) p])%list.
Proof.
  apply (step_auxiliary_records (sample_db State.RUNNING)
           (UpdateState 200 "ti-1" (Deferred sample_deferred))).
  vm_compute. discriminate.
Defined.

(** ** Update-state, further *)

(** What an accepted update-state leaves in the addressed row: the state of
    the payload's kind, and the holder's hostname and pid as they were. *)
Lemma update_state_row d utcnow i p row :
  task_instance d !! i = Some row ->
  fst (update_state d utcnow i p) = Ok tt /\
  exists row',
    task_instance (snd (update_state d utcnow i p)) !! i = Some row' /\
    TI.state row' = target_state p /\
    TI.hostname row' = TI.hostname row /\
    TI.pid row' = TI.pid row.
Proof.
  intros H. destruct p as [p|p|p].
  - rewrite (update_state_terminal _ _ _ _ _ H). split; [reflexivity|].
    exists (terminated p row). simpl. rewrite lookup_insert_eq.
    unfold terminated. destruct (decide _); auto.
  - rewrite (update_state_deferred _ _ _ _ _ H). split; [reflexivity|].
    exists (deferred utcnow p row). simpl. rewrite lookup_insert_eq. auto.
  - rewrite (update_state_reschedule _ _ _ _ _ H). split; [reflexivity|].
    exists (rescheduled p row). simpl. rewrite lookup_insert_eq. auto.
Qed.

Lemma target_state_not_running p : target_state p <> State.RUNNING.
Proof. destruct p as [p|p|p]; simpl; try discriminate. destruct (tp_state p); discriminate. Qed.

Lemma target_state_not_queued p : target_state p <> State.QUEUED.
Proof. destruct p as [p|p|p]; simpl; try discriminate. destruct (tp_state p); discriminate. Qed.

(** X13: a terminal update with a final state other than FAILED rewrites
    the state, the end date and the duration and nothing else: next_method,
    next_kwargs, the holder identity, the trigger columns and the heartbeat
    are kept. *)
Theorem update_state_terminal_not_failed d utcnow i p row :
  task_instance d !! i = Some row ->
  tp_state p <> TerminalTIState.FAILED ->
  update_state d utcnow i (Terminal p)
  = (Ok tt,
     set_task_instance
       (<[i := TI.mk (TI.id row) (TI.task_id row) (TI.dag_id row) (TI.run_id row)
                 (TI.try_number row) (TI.map_index row)
                 (TerminalTIState.to_state (tp_state p))
                 (TI.hostname row) (TI.unixname row) (TI.pid row)
                 (TI.start_date row) (Some (tp_end_date p))
                 (duration_expression (tp_end_date p) row)
                 (TI.next_method row) (TI.next_kwargs row) (TI.trigger_id row)
                 (TI.trigger_timeout row) (TI.last_heartbeat_at row)]>
          (task_instance d)) d).
Proof.
  intros H Hf. rewrite (update_state_terminal _ _ _ _ _ H). unfold terminated.
  destruct (decide _) as [Hf'|_]; [contradiction | reflexivity].
Qed.

Lemma update_state_terminal_not_failed_witness :
  TI.next_method
    <$> task_instance
          (snd (update_state
                  (snd (update_state (sample_db State.RUNNING) 200 "ti-1"
                          (Deferred sample_deferred)))
                  250 "ti-1"
                  (Terminal {| tp_state := TerminalTIState.SKIPPED; tp_end_date := 240 |})))
          !! "ti-1"
  = Some (Some "execute_callback").
Proof.
  rewrite (update_state_terminal_not_failed
             (snd (update_state (sample_db State.RUNNING) 200 "ti-1"
                     (Deferred sample_deferred)))
             250 "ti-1"
             {| tp_state := TerminalTIState.SKIPPED; tp_end_date := 240 |}
             (deferred 200 sample_deferred (sample_ti State.RUNNING))).
  - reflexivity.
  - reflexivity.
  - discriminate.
Defined.

(** X14: after an accepted update-state of any kind, a heartbeat from the
    stored hostname and pid is a 409 not_running that carries the state the
    update left (the terminal state, DEFERRED or UP_FOR_RESCHEDULE), and it
    changes nothing. *)
Theorem update_state_then_heartbeat d utcnow utcnow' i p hb row :
  task_instance d !! i = Some row ->
  TI.hostname row = Some (hb_hostname hb) ->
  TI.pid row = Some (hb_pid hb) ->
  heartbeat (snd (update_state d utcnow i p)) utcnow' i hb
  = (Raise (HTTPException HTTP_409_CONFLICT (not_running (target_state p))),
     snd (update_state d utcnow i p)).
Proof.
  intros H Hh Hp.
  destruct (update_state_row d utcnow i p row H) as (_ & row' & H' & Hs & Hh' & Hp').
  rewrite (heartbeat_holder_not_running _ utcnow' _ hb _ H'); try congruence.
  rewrite Hs. apply target_state_not_running.
Qed.

Lemma update_state_then_heartbeat_witness :
  fst (heartbeat
         (snd (update_state (sample_db State.RUNNING) 200 "ti-1"
                 (Reschedule sample_reschedule)))
         210 "ti-1" {| hb_hostname := "h1"; hb_pid := 1000 |})
  = Raise (HTTPException HTTP_409_CONFLICT (not_running State.UP_FOR_RESCHEDULE)).
Proof.
  rewrite (update_state_then_heartbeat (sample_db State.RUNNING) 200 210 "ti-1"
             (Reschedule sample_reschedule) {| hb_hostname := "h1"; hb_pid := 1000 |}
             (sample_ti State.RUNNING)); reflexivity.
Defined.

(** X15: after an accepted update-state of any kind, start-run is a 409
    conflict whose previous state is the state the update left: a deferred
    or rescheduled instance cannot be started through this route. *)
Theorem update_state_then_start_run d utcnow i p q row :
  task_instance d !! i = Some row ->
  start_run (snd (update_state d utcnow i p)) i q
  = (Raise (HTTPException HTTP_409_CONFLICT (invalid_state (target_state p))),
     snd (update_state d utcnow i p)).
Proof.
  intros H.
  destruct (update_state_row d utcnow i p row H) as (_ & row' & H' & Hs & _).
  rewrite (start_run_invalid_state _ _ q _ H').
  - now rewrite Hs.
  - rewrite Hs. apply target_state_not_queued.
Qed.

Lemma update_state_then_start_run_witness :
  fst (start_run
         (snd (update_state (sample_db State.RUNNING) 200 "ti-1" (Deferred sample_deferred)))
         "ti-1" sample_enter)
  = Raise (HTTPException HTTP_409_CONFLICT (invalid_state State.DEFERRED)).
Proof.
  rewrite (update_state_then_start_run (sample_db State.RUNNING) 200 "ti-1"
             (Deferred sample_deferred) sample_enter (sample_ti State.RUNNING));
    reflexivity.
Defined.

(** X16: the reschedule record carries the clock reading of the call as its
    start date, not the instance's start date, and the payload's end date
    and reschedule date. *)
Theorem update_state_reschedule_dates d utcnow i p row :
  task_instance d !! i = Some row ->
  exists record,
    task_reschedule (snd (update_state d utcnow i (Reschedule p)))
    = (task_reschedule d ++ [record])%list /\
    TaskReschedule.start_date record = utcnow /\
    TaskReschedule.end_date record = rp_end_date p /\
    TaskReschedule.reschedule_date record = rp_reschedule_date p.
Proof.
  intros H. rewrite (update_state_reschedule _ _ _ _ _ H).
  exists (reschedule_record utcnow p row). auto.
Qed.

Lemma update_state_reschedule_dates_witness :
  exists record,
    task_reschedule
      (snd (update_state (sample_db State.RUNNING) 200 "ti-1" (Reschedule sample_reschedule)))
    = [record] /\
    TaskReschedule.start_date record = 200.
Proof.
  destruct (update_state_reschedule_dates (sample_db State.RUNNING) 200 "ti-1"
              sample_reschedule (sample_ti State.RUNNING))
    as (record & E & Hs & _); [reflexivity|].
  exists record. split; [exact E | exact Hs].
Defined.

(** ** Which call writes which column *)

Lemma transition_holder op row row' :
  transition op row row' ->
  (forall i p, op <> StartRun i p) ->
  holder row' = holder row.
Proof.
  intros Ht Hop. destruct Ht as [i p row|utcnow i p row|utcnow i p row|utcnow i p row|utcnow i p row];
    try reflexivity.
  - now contradiction (Hop i p).
  - unfold terminated. destruct (decide _); reflexivity.
Qed.

Lemma transition_last_heartbeat_at op row row' :
  transition op row row' ->
  (forall utcnow i p, op <> Heartbeat utcnow i p) ->
  TI.last_heartbeat_at row' = TI.last_heartbeat_at row.
Proof.
  intros Ht Hop. destruct Ht as [i p row|utcnow i p row|utcnow i p row|utcnow i p row|utcnow i p row];
    try reflexivity.
  - unfold terminated. destruct (decide _); reflexivity.
  - now contradiction (Hop utcnow i p).
Qed.

(** X17: the holder identity (hostname, unixname, pid) of an instance is
    written by start-run only, and last_heartbeat_at by heartbeat only:
    every other call leaves them as they were, on every instance. *)
Theorem step_column_writers d op j :
  ((forall i p, op <> StartRun i p) ->
   holder <$> task_instance (step d op) !! j = holder <$> task_instance d !! j) /\
  ((forall utcnow i p, op <> Heartbeat utcnow i p) ->
   TI.last_heartbeat_at <$> task_instance (step d op) !! j
   = TI.last_heartbeat_at <$> task_instance d !! j).
Proof.
  destruct (step_cases d op) as [E|[(row & row' & H & Ht & E)|(row & p & _ & _ & E)]];
    rewrite E; simpl; split; intros Hop; try reflexivity.
  - destruct (decide (target op = j)) as [<-|Hne].
    + rewrite lookup_insert_eq, H. simpl. f_equal.
      exact (transition_holder _ _ _ Ht Hop).
    + now rewrite lookup_insert_ne.
  - destruct (decide (target op = j)) as [<-|Hne].
    + rewrite lookup_insert_eq, H. simpl. f_equal.
      exact (transition_last_heartbeat_at _ _ _ Ht Hop).
    + now rewrite lookup_insert_ne.
Qed.

Lemma step_column_writers_witness :
  holder
    <$> task_instance
          (step (sample_db State.RUNNING)
             (UpdateState 200 "ti-1"
                (Terminal {| tp_state := TerminalTIState.FAILED; tp_end_date := 180 |})))
          !! "ti-1"
  = Some (Some "h1", Some "airflow", Some 1000).
Proof.
  rewrite (proj1 (step_column_writers (sample_db State.RUNNING)
                    (UpdateState 200 "ti-1"
                       (Terminal {| tp_state := TerminalTIState.FAILED; tp_end_date := 180 |}))
                    "ti-1")).
  - reflexivity.
  - discriminate.
Defined.

(** ** The handlers inside the unit of work *)

(** X18: the handlers reject before they write.  Whenever ti_run,
    ti_update_state or ti_heartbeat raises an HTTPException other than the
    500 of a database-error handler (that is, a 404 or a 409), the session,
    pending objects included, is exactly as the handler found it: these
    rejections do not rely on the abort of the unit of work. *)
Theorem handlers_reject_before_writing s s' status_code detail :
  status_code <> HTTP_500_INTERNAL_SERVER_ERROR ->
  (forall utcnow i p,
      ti_heartbeat utcnow i p s = (Raise (HTTPException status_code detail), s') ->
      s' = s) /\
  (forall utcnow i p,
      ti_update_state utcnow i p s = (Raise (HTTPException status_code detail), s') ->
      s' = s) /\
  (forall i p,
      ti_run i p s = (Raise (HTTPException status_code detail), s') ->
      s' = s).
Proof.
  intros Hc. split; [|split].
  - intros utcnow i p. unfold_route.
    destruct (task_instance (rows s) !! i) as [row|] eqn:H; simpl.
    + destruct (decide _); [intros [= _ _ <-]; reflexivity|].
      destruct (decide _); [intros [= _ _ <-]; reflexivity|].
      simpl. rewrite H. discriminate.
    + intros [= _ _ <-]. reflexivity.
  - intros utcnow i p. unfold_route.
    destruct (task_instance (rows s) !! i) as [row|] eqn:H; simpl.
    + destruct p as [p|p|p]; simpl.
      * destruct (decide _); simpl; rewrite H; discriminate.
      * rewrite H. discriminate.
      * rewrite H. simpl. rewrite H. discriminate.
    + intros [= _ _ <-]. reflexivity.
  - intros i p. unfold_route.
    destruct (task_instance (rows s) !! i) as [row|] eqn:H; simpl.
    + destruct (decide _); [intros [= _ _ <-]; reflexivity|].
      simpl. rewrite H. simpl.
      destruct (filter_by _ _ _) as [|dr [|dr' l]]; simpl.
      * discriminate.
      * discriminate.
      * intros [= <- _ _]. now contradiction Hc.
    + intros [= _ _ <-]. reflexivity.
Qed.

Lemma handlers_reject_before_writing_witness :
  snd (ti_run "ti-1" sample_enter
         (mkSession (sample_db State.RUNNING) [NewTrigger (Trigger.new "c" [])]))
  = mkSession (sample_db State.RUNNING) [NewTrigger (Trigger.new "c" [])].
Proof.
  apply (proj2 (proj2 (handlers_reject_before_writing
                         (mkSession (sample_db State.RUNNING) [NewTrigger (Trigger.new "c" [])])
                         (snd (ti_run "ti-1" sample_enter
                                 (mkSession (sample_db State.RUNNING)
                                    [NewTrigger (Trigger.new "c" [])])))
                         HTTP_409_CONFLICT (invalid_state State.RUNNING)
                         ltac:(discriminate)))
           "ti-1" sample_enter).
  reflexivity.
Defined.

(** X19: ti_run looks the run up after it has executed the UPDATE.  For a
    QUEUED instance with no matching run, the handler raises the ValueError
    with the row already RUNNING in the session; the store is left as it
    was only because the unit of work aborts. *)
Theorem ti_run_value_error_after_update d i p row :
  task_instance d !! i = Some row ->
  TI.state row = State.QUEUED ->
  filter_by (TI.dag_id row) (TI.run_id row) (dag_run_table d) = [] ->
  exists message s' row',
    ti_run i p (mkSession d []) = (Raise (ValueError message), s') /\
    task_instance (rows s') !! i = Some row' /\
    TI.state row' = State.RUNNING /\
    start_run d i p = (Raise (ValueError message), d).
Proof.
  intros H Hs F. eexists _, _, (started p row). split; [|split; [|split]].
  - unfold_route. rewrite H. simpl.
    destruct (decide _) as [Hn|_]; [contradiction|].
    simpl. rewrite H. simpl. rewrite F. reflexivity.
  - simpl. apply lookup_insert_eq.
  - reflexivity.
  - rewrite (start_run_queued _ _ _ _ H Hs), F. reflexivity.
Qed.

Lemma ti_run_value_error_after_update_witness :
  exists message,
    start_run (mkDatabase {[ "ti-1" := sample_ti State.QUEUED ]} [] [] [] ∅)
      "ti-1" sample_enter
    = (Raise (ValueError message),
       mkDatabase {[ "ti-1" := sample_ti State.QUEUED ]} [] [] [] ∅).
Proof.
  destruct (ti_run_value_error_after_update
              (mkDatabase {[ "ti-1" := sample_ti State.QUEUED ]} [] [] [] ∅)
              "ti-1" sample_enter (sample_ti State.QUEUED))
    as (message & s' & row' & _ & _ & _ & E); [reflexivity..|].
  exists message. exact E.
Defined.

(** ** Rendered fields *)

(** X20: put-rendered-fields checks that the instance exists and nothing
    else: for an instance in any state and with any holder it succeeds with
    the fixed message, stores the payload under the instance's id, and
    leaves the instance, run, trigger and reschedule tables as they
    were. *)
Theorem put_rendered_fields_existing d i p row :
  task_instance d !! i = Some row ->
  exists d',
    put_rendered_fields d i p
    = (Ok "Rendered task instance fields successfully set", d') /\
    rendered_task_instance_fields d' !! TI.id row = Some p /\
    task_instance d' = task_instance d /\
    dag_run_table d' = dag_run_table d /\
    trigger d' = trigger d /\
    task_reschedule d' = task_reschedule d.
Proof.
  intros H. eexists. split; [apply put_rendered_fields_found; exact H|].
  simpl. rewrite lookup_insert_eq. auto.
Qed.

Lemma put_rendered_fields_existing_witness :
  fst (put_rendered_fields (sample_db State.SUCCESS) "ti-1" [("bash_command", "echo 1")])
  = Ok "Rendered task instance fields successfully set".
Proof.
  destruct (put_rendered_fields_existing (sample_db State.SUCCESS) "ti-1"
              [("bash_command", "echo 1")] (sample_ti State.SUCCESS))
    as (d' & E & _); [reflexivity|].
  rewrite E. reflexivity.
Defined.
